(** * GitGrade: the repository-context pipeline of [final_app.py]

    A shallow embedding of the four helper functions of [final_app.py]
    ([parse_github_url], [fetch_file_content], [get_repo_structure],
    [analyze_with_gemini]) together with the properties of the
    specification that concern them.

    Python values are modelled by one inductive type, [pyval]; Python [str]
    is a Rocq [string] (the UTF-8 bytes of the text, so that the substring
    test with an ASCII needle is the same test on code points); exceptions
    are explicit ([outcome]); the HTTP traffic is a log of the requests
    issued, threaded through a small state-and-exception monad. *)

From Stdlib Require Import String Ascii List ZArith Lia Bool Arith.
From Stdlib Require Import DecimalString.
From Stdlib.Strings Require Import Byte.
Import ListNotations.

#[local] Set Warnings "-register-all".

Local Open Scope list_scope.
Local Open Scope string_scope.

(* ================================================================== *)
(** * Python values, exceptions *)
(* ================================================================== *)

(** The values [response.json()] produces, which are also the values the
    snapshot is built from.  A [PDict] keeps its items in insertion order;
    lookup takes the first binding of a key. *)
Inductive pyval : Type :=
| PNone
| PBool (b : bool)
| PInt (n : Z)
| PFloat (literal : string)
| PStr (s : string)
| PList (items : list pyval)
| PDict (items : list (string * pyval)).

(** An exception: its class name and the text [str(e)] yields. *)
Inductive exn : Type :=
| Exn (cls : string) (msg : string).

Definition exn_class (e : exn) : string := let 'Exn c _ := e in c.
Definition exn_str (e : exn) : string := let 'Exn _ m := e in m.

(** The result of evaluating a Python expression: a value or a raised
    exception. *)
Inductive outcome (A : Type) : Type :=
| Ret (a : A)
| Raise (e : exn).
Arguments Ret {A} a.
Arguments Raise {A} e.

Definition is_ret {A} (o : outcome A) : bool :=
  match o with Ret _ => true | Raise _ => false end.

Definition obind {A B : Type} (o : outcome A) (k : A -> outcome B) : outcome B :=
  match o with
  | Ret a => k a
  | Raise e => Raise e
  end.

(** [try: body / except: handler] *)
Definition otry {A : Type} (body : outcome A) (handler : exn -> outcome A) : outcome A :=
  match body with
  | Ret a => Ret a
  | Raise e => handler e
  end.

Definition nl : string := String "010"%char EmptyString.
Definition dquote : string := String "034"%char EmptyString.
Definition squote : string := String "039"%char EmptyString.

(** [type(v).__name__] *)
Definition py_type_name (v : pyval) : string :=
  match v with
  | PNone => "NoneType"
  | PBool _ => "bool"
  | PInt _ => "int"
  | PFloat _ => "float"
  | PStr _ => "str"
  | PList _ => "list"
  | PDict _ => "dict"
  end.

Definition AttributeError (v : pyval) (attr : string) : exn :=
  Exn "AttributeError"
      (squote ++ py_type_name v ++ "' object has no attribute '" ++ attr ++ squote).
Definition KeyError (key : string) : exn :=
  Exn "KeyError" (squote ++ key ++ squote).
Definition TypeError (msg : string) : exn := Exn "TypeError" msg.
Definition ValueError (msg : string) : exn := Exn "ValueError" msg.

(* ================================================================== *)
(** * The string and dictionary operations the program uses *)
(* ================================================================== *)

(** [needle in haystack] on [str]. *)
Fixpoint contains (needle haystack : string) : bool :=
  match haystack with
  | EmptyString => prefix needle EmptyString
  | String _ rest => prefix needle haystack || contains needle rest
  end.

(** [s.rstrip(c)] for a one-character argument. *)
Fixpoint rstrip (c : ascii) (s : string) : string :=
  match s with
  | EmptyString => EmptyString
  | String a rest =>
      match rstrip c rest with
      | EmptyString => if Ascii.eqb a c then EmptyString else String a EmptyString
      | kept => String a kept
      end
  end.

(** [s.split(c)] for a one-character separator: one more piece than there
    are separators. *)
Fixpoint split (c : ascii) (s : string) : list string :=
  match s with
  | EmptyString => [EmptyString]
  | String a rest =>
      if Ascii.eqb a c then EmptyString :: split c rest
      else match split c rest with
           | piece :: pieces => String a piece :: pieces
           | [] => [String a EmptyString]
           end
  end.

(** [parts[-k]] for [1 <= k <= len(parts)]. *)
Definition index_from_end (parts : list string) (k : nat) : string :=
  nth (length parts - k) parts EmptyString.

(** [str(n)] for an [int]. *)
Definition str_of_int (n : Z) : string := NilZero.string_of_int (Z.to_int n).

Fixpoint assoc {V : Type} (k : string) (items : list (string * V)) : option V :=
  match items with
  | [] => None
  | (k', v) :: rest => if String.eqb k k' then Some v else assoc k rest
  end.

(** [d[k] = v] on a dictionary: the value is replaced in place when the key
    is there, and the item is appended otherwise. *)
Fixpoint dict_set {V : Type} (items : list (string * V)) (k : string) (v : V)
  : list (string * V) :=
  match items with
  | [] => [(k, v)]
  | (k', v') :: rest =>
      if String.eqb k k' then (k, v) :: rest else (k', v') :: dict_set rest k v
  end.

Definition keys {V : Type} (items : list (string * V)) : list string :=
  map fst items.

(** [v.get(k, default)]: only a [dict] has the method. *)
Definition py_get (v : pyval) (k : string) (default : pyval) : outcome pyval :=
  match v with
  | PDict items =>
      Ret (match assoc k items with Some x => x | None => default end)
  | _ => Raise (AttributeError v "get")
  end.

(** [v[k]] with a [str] key. *)
Definition py_getitem (v : pyval) (k : string) : outcome pyval :=
  match v with
  | PDict items =>
      match assoc k items with
      | Some x => Ret x
      | None => Raise (KeyError k)
      end
  | PStr _ => Raise (TypeError "string indices must be integers, not 'str'")
  | PList _ => Raise (TypeError "list indices must be integers or slices, not str")
  | _ => Raise (TypeError (squote ++ py_type_name v ++ "' object is not subscriptable"))
  end.

(** The items a [for] loop sees in [v[:n]].  A string is sliceable and is
    iterated character by character (here byte by byte: every such item
    is a [str], which is all the program can observe of it). *)
Definition py_slice_items (v : pyval) (n : nat) : outcome (list pyval) :=
  match v with
  | PList items => Ret (firstn n items)
  | PStr s =>
      Ret (map (fun c => PStr (String c EmptyString))
               (firstn n (list_ascii_of_string s)))
  | PDict _ => Raise (TypeError "unhashable type: 'slice'")
  | _ => Raise (TypeError (squote ++ py_type_name v ++ "' object is not subscriptable"))
  end.

(** [v.items()] *)
Definition py_items (v : pyval) : outcome (list (string * pyval)) :=
  match v with
  | PDict items => Ret items
  | _ => Raise (AttributeError v "items")
  end.

(** [[item[k] for item in items]]: the first failing subscript raises. *)
Fixpoint py_map_getitem (items : list pyval) (k : string) : outcome (list pyval) :=
  match items with
  | [] => Ret []
  | item :: rest =>
      match py_getitem item k with
      | Raise e => Raise e
      | Ret x =>
          match py_map_getitem rest k with
          | Raise e => Raise e
          | Ret xs => Ret (x :: xs)
          end
      end
  end.

(** The strings of a list of values; the first item that is not a [str]
    raises, [i] being the position of the head of [l] in the sequence. *)
Fixpoint str_items (l : list pyval) (i : nat) : outcome (list string) :=
  match l with
  | [] => Ret []
  | PStr s :: rest => obind (str_items rest (S i)) (fun ss => Ret (s :: ss))
  | v :: _ =>
      Raise (TypeError ("sequence item " ++ str_of_int (Z.of_nat i)
                        ++ ": expected str instance, " ++ py_type_name v ++ " found"))
  end.

(** [sep.join(l)]: every item has to be a [str]. *)
Definition py_join (sep : string) (l : list pyval) : outcome string :=
  obind (str_items l 0) (fun ss => Ret (String.concat sep ss)).

(** [bool(token)] for the optional token argument ([None] or a [str]). *)
Definition truthy (token : option string) : bool :=
  match token with
  | None => false
  | Some s => negb (String.eqb s EmptyString)
  end.

(* ================================================================== *)
(** * The world outside the program *)
(* ================================================================== *)

Definition headers : Type := list (string * string).

(** A [requests.Response]: what the program reads of it.  [json] is the
    result of [response.json()], which raises when the body is not JSON. *)
Record response : Type := {
  status_code : Z;
  json : outcome pyval
}.

(** What [model.generate_content(prompt)] returns; reading [.text] can
    raise (a blocked or empty candidate). *)
Record GenerateContentResponse : Type := {
  text : outcome string
}.

(** The libraries and services the program calls.  A call that fails
    raises an exception derived from [Exception], as [requests],
    [base64], [bytes.decode] and [google.generativeai] do.
    - [requests_get url headers] is the answer to a GET, or the exception
      the transport raises.  One run of the program requests every URL
      at most once (the metadata, tree and contents URLs of a repository
      are pairwise distinct), so a function of the URL describes any
      server, whatever state it keeps between requests;
    - [py_repr] is [repr] on the values [str] does not print itself
      (floats, lists, dictionaries);
    - [generate_content key model prompt] is the generation call of the
      model [model] under the configured API key [key]. *)
Record World : Type := {
  requests_get : string -> headers -> outcome response;
  b64decode : string -> outcome (list byte);
  decode_utf8 : list byte -> outcome string;
  py_repr : pyval -> string;
  genai_configure : string -> outcome unit;
  genai_GenerativeModel : string -> outcome unit;
  generate_content : string -> string -> string -> outcome GenerateContentResponse
}.

(** [str(v)], which is what an f-string field prints. *)
Definition py_str (w : World) (v : pyval) : string :=
  match v with
  | PStr s => s
  | PNone => "None"
  | PBool true => "True"
  | PBool false => "False"
  | PInt n => str_of_int n
  | _ => py_repr w v
  end.

(** [base64.b64decode(v)]: anything but a string is a [TypeError]. *)
Definition py_b64decode (w : World) (v : pyval) : outcome (list byte) :=
  match v with
  | PStr s => b64decode w s
  | _ => Raise (TypeError ("argument should be a bytes-like object or ASCII string, not '"
                           ++ py_type_name v ++ squote))
  end.

(* ================================================================== *)
(** * Exceptions and the request log *)
(* ================================================================== *)

Record request : Type := {
  req_url : string;
  req_headers : headers
}.

(** A computation that issues HTTP requests: it extends the log of the
    requests issued so far and returns or raises. *)
Definition M (A : Type) : Type := list request -> outcome A * list request.

Definition ret {A : Type} (a : A) : M A := fun log => (Ret a, log).

Definition lift {A : Type} (o : outcome A) : M A := fun log => (o, log).

Definition bind {A B : Type} (m : M A) (k : A -> M B) : M B :=
  fun log =>
    match m log with
    | (Ret a, log') => k a log'
    | (Raise e, log') => (Raise e, log')
    end.

(** [requests.get(url, headers=headers)] *)
Definition http_get (w : World) (url : string) (hs : headers) : M response :=
  fun log =>
    (requests_get w url hs, (log ++ [{| req_url := url; req_headers := hs |}])%list).

Declare Scope py_scope.
Delimit Scope py_scope with py.
Notation "x <- m ;; k" := (bind m (fun x => k))
  (at level 61, m at next level, right associativity) : py_scope.
Notation "x <-? o ;; k" := (obind o (fun x => k))
  (at level 61, o at next level, right associativity) : py_scope.
Local Open Scope py_scope.

(** The run of a computation from an empty log. *)
Definition result_of {A : Type} (m : M A) : outcome A := fst (m []).
Definition requests_of {A : Type} (m : M A) : list request := snd (m []).

(* ================================================================== *)
(** * The program *)
(* ================================================================== *)

(** [parse_github_url(url)]: the pair [(None, None)] or [(owner, repo)].
    The [except] branch is for an argument that is not a string. *)
Definition parse_github_url (url : string) : option string * option string :=
  let parts := split "/" (rstrip "/" url) in
  if (length parts <? 2)%nat then (None, None)
  else
    let owner := index_from_end parts 2 in
    let repo := index_from_end parts 1 in
    (Some owner, Some repo).

(** The [headers] dictionary both fetching functions build. *)
Definition auth_headers (token : option string) : headers :=
  match token with
  | Some t => if truthy token then [("Authorization", "token " ++ t)] else []
  | None => []
  end.

Definition api_url (owner repo : string) : string :=
  "https://api.github.com/repos/" ++ owner ++ "/" ++ repo.

Definition file_url (owner repo file_path : string) : string :=
  "https://api.github.com/repos/" ++ owner ++ "/" ++ repo ++ "/contents/" ++ file_path.

Definition not_found_message (file_path : string) : string :=
  "File " ++ file_path ++ " not found or inaccessible.".

Definition decode_error_message (file_path : string) : string :=
  "Error decoding " ++ file_path ++ " content.".

(** Lines 51-57: what [fetch_file_content] makes of the response. *)
Definition file_content_of (w : World) (file_path : string) (r : response)
  : outcome string :=
  if (status_code r =? 200)%Z then
    body <-? json r ;;
    content_b64 <-? py_get body "content" (PStr "") ;;
    otry (raw <-? py_b64decode w content_b64 ;; decode_utf8 w raw)
         (fun _ => Ret (decode_error_message file_path))
  else Ret (not_found_message file_path).

Definition fetch_file_content (w : World) (owner repo file_path : string)
    (token : option string) : M string :=
  let hs := auth_headers token in
  r <- http_get w (file_url owner repo file_path) hs ;;
  lift (file_content_of w file_path r).

Definition tree_url (w : World) (owner repo : string) (default_branch : pyval) : string :=
  "https://api.github.com/repos/" ++ owner ++ "/" ++ repo ++ "/git/trees/"
    ++ py_str w default_branch ++ "?recursive=1".

(** Lines 81-85: the newline-joined paths of the first 100 tree entries,
    the empty string when the tree request did not answer 200. *)
Definition file_structure_of (tree_response : response) : outcome string :=
  if (status_code tree_response =? 200)%Z then
    tree_data <-? json tree_response ;;
    tree <-? py_get tree_data "tree" (PList []) ;;
    items <-? py_slice_items tree 100 ;;
    files <-? py_map_getitem items "path" ;;
    py_join nl files
  else Ret "".

(** The absence test both callers apply to a fetched content. *)
Definition looks_absent (content : string) : bool :=
  contains "not found" content || contains "inaccessible" content.

Definition dep_files : list string :=
  ["requirements.txt"; "package.json"; "Pipfile"; "pyproject.toml";
   "package-lock.json"; "Pipfile.lock"; "yarn.lock"].

Definition no_readme_message : string := "No README.md found.".

Definition no_dependency_message : string :=
  "No primary dependency file (e.g., requirements.txt, package.json) or lock file found.".

(** Lines 96-99: the loop over the manifest names. *)
Fixpoint collect_dependencies (w : World) (owner repo : string) (token : option string)
    (files : list string) (dependency_content : list (string * pyval))
  : M (list (string * pyval)) :=
  match files with
  | [] => ret dependency_content
  | file_name :: rest =>
      content <- fetch_file_content w owner repo file_name token ;;
      collect_dependencies w owner repo token rest
        (if negb (contains "not found" content) && negb (contains "inaccessible" content)
         then dict_set dependency_content file_name (PStr content)
         else dependency_content)
  end.

(** [get_repo_structure(owner, repo, token)]: the pair it returns. *)
Definition get_repo_structure (w : World) (owner repo : string) (token : option string)
  : M (pyval * pyval) :=
  let hs := auth_headers token in
  r <- http_get w (api_url owner repo) hs ;;
  if negb (status_code r =? 200)%Z then
    body <- lift (json r) ;;
    error_message <- lift (py_get body "message" (PStr "Unknown error")) ;;
    ret (PNone,
         PStr ("Error: Could not fetch repo. Status Code: " ++ str_of_int (status_code r)
               ++ ". Message: " ++ py_str w error_message))
  else
    repo_data <- lift (json r) ;;
    default_branch <- lift (py_get repo_data "default_branch" (PStr "main")) ;;
    tree_response <- http_get w (tree_url w owner repo default_branch) hs ;;
    file_structure <- lift (file_structure_of tree_response) ;;
    readme_content <- fetch_file_content w owner repo "README.md" token ;;
    let readme_content :=
      if contains "not found" readme_content || contains "inaccessible" readme_content
      then no_readme_message else readme_content in
    dependency_content <- collect_dependencies w owner repo token dep_files [] ;;
    let dependency_content :=
      match dependency_content with
      | [] => dict_set dependency_content "status" (PStr no_dependency_message)
      | _ :: _ => dependency_content
      end in
    ret (PDict [("metadata", repo_data);
                ("structure", PStr file_structure);
                ("readme", PStr readme_content);
                ("dependencies", PDict dependency_content)],
         PNone).
Definition prompt_before_metadata : string :=
  String.concat nl
    [ "";
      "    You are a strict Senior Developer Mentor acting as an AI engine for " ++ dquote ++ "GitGrade" ++ dquote ++ ".";
      "    Your task is to evaluate a GitHub repository based on the following inputs:";
      "    ";
      "    1. **Repository Metadata**: " ].

Definition prompt_before_structure : string :=
  String.concat nl
    [ "";
      "    2. **File Structure**: ";
      "    " ].

Definition prompt_before_readme : string :=
  String.concat nl
    [ "";
      "    3. **README Content**: ";
      "    " ].

Definition prompt_before_dependencies : string :=
  String.concat nl
    [ "";
      "    4. **Dependency Files Content**:";
      "    " ].

Definition prompt_after_dependencies : string :=
  String.concat nl
    [ "";
      "";
      "    **Evaluation Criteria:**";
      "    - **Code Quality & Organization:** Look for clean folder structures (src, tests, docs), separation of concerns.";
      "    - **Documentation:** Is the README clear? Does it have setup instructions?";
      "    - **Best Practices:** Presence of .gitignore, LICENSE, CI/CD workflows, test folders.";
      "    - **Dependency Health (CRITICAL):** Analyze the provided dependency content (or lack thereof) for:";
      "        a) **Security Risk:** Are common packages severely outdated? (Infer potential CVEs if versions are very old).";
      "        b) **Maintainability:** Is a lock file (e.g., package-lock.json, Pipfile.lock) present? (Crucial for reproducible builds).";
      "        c) **Clarity:** Are dependencies specified without version pinning? (Bad practice).";
      "";
      "    **Output Requirement:**";
      "    Provide the response in the following specific format:";
      "";
      "    ### SCORE";
      "    [Provide a score out of 100 based on the quality. Be honest and critical.]";
      "";
      "    ### CRITICAL INSIGHTS";
      "    [A 2-3 sentence section dedicated ONLY to Dependency Health and Security Risk. Be direct.]";
      "";
      "    ### SUMMARY";
      "    [A short paragraph (approx 50 words) evaluating the strengths and weaknesses of the overall project, including the Dependency Health findings.]";
      "";
      "    ### ROADMAP";
      "    [Bulleted list of 3-5 actionable steps the student must take to improve this project. Include at least two specific actions related to Dependency Health (e.g., pinning versions, adding a lock file, or updating a specific package).]";
      "    ";
      "    Do not be polite just for the sake of it. Give honest, constructive feedback.";
      "    " ].

(** One block of the dependency summary: [f"--- {name} ---\n{content}"]. *)
Definition dep_block (w : World) (item : string * pyval) : string :=
  "--- " ++ fst item ++ " ---" ++ nl ++ py_str w (snd item).

Definition dep_summary_of (w : World) (items : list (string * pyval)) : string :=
  String.concat (nl ++ nl) (map (dep_block w) items).

(** Lines 120-162: the prompt, or the exception a missing key raises. *)
Definition build_prompt (w : World) (repo_data : pyval) : outcome string :=
  dependencies <-? py_getitem repo_data "dependencies" ;;
  items <-? py_items dependencies ;;
  let dep_summary := dep_summary_of w items in
  metadata <-? py_getitem repo_data "metadata" ;;
  structure <-? py_getitem repo_data "structure" ;;
  readme <-? py_getitem repo_data "readme" ;;
  Ret (prompt_before_metadata ++ py_str w metadata
       ++ prompt_before_structure ++ py_str w structure
       ++ prompt_before_readme ++ py_str w readme
       ++ prompt_before_dependencies ++ dep_summary
       ++ prompt_after_dependencies).

(** [analyze_with_gemini(repo_data, api_key, model_name)] *)
Definition analyze_with_gemini (w : World) (repo_data : pyval)
    (api_key model_name : string) : outcome string :=
  match (_ <-? genai_configure w api_key ;; genai_GenerativeModel w model_name) with
  | Raise e => Ret ("Error configuring Gemini API or loading model: " ++ exn_str e)
  | Ret _ =>
      prompt <-? build_prompt w repo_data ;;
      otry (r <-? generate_content w api_key model_name prompt ;; text r)
           (fun e => Ret ("Error generating content: " ++ exn_str e))
  end.

(* ================================================================== *)
(** * Reference behaviour of the two decoding calls *)
(* ================================================================== *)

(** The theorems below hold for every [World].  The concrete runs use the
    following decoders: [base64.b64decode] in its default, non-validating
    mode (characters outside the alphabet are skipped, the padding rule is
    the one of [binascii.a2b_base64]) and strict UTF-8 decoding. *)

Definition b64_digit (c : ascii) : option N :=
  let n := N_of_ascii c in
  if (65 <=? n)%N && (n <=? 90)%N then Some (n - 65)%N
  else if (97 <=? n)%N && (n <=? 122)%N then Some (n - 71)%N
  else if (48 <=? n)%N && (n <=? 57)%N then Some (n + 4)%N
  else if (n =? 43)%N then Some 62%N
  else if (n =? 47)%N then Some 63%N
  else None.

Definition byte_of_N (n : N) : byte :=
  match Byte.of_N (n mod 256) with
  | Some b => b
  | None => x00
  end.

(** The loop of [binascii.a2b_base64]: [quad_pos] counts the digits of the
    current group, [leftchar] holds the bits not yet written, [pads] the
    padding characters seen since the last digit, [out] the bytes written,
    last first. *)
Fixpoint a2b_base64 (data : list ascii) (quad_pos : nat) (leftchar : N)
    (pads : nat) (out : list byte) : outcome (list byte) :=
  match data with
  | [] =>
      match quad_pos with
      | 0 => Ret (rev out)
      | 1 => Raise (Exn "binascii.Error"
                        ("Invalid base64-encoded string: number of data characters ("
                         ++ str_of_int (Z.of_nat (length out / 3 * 4 + 1))
                         ++ ") cannot be 1 more than a multiple of 4"))
      | _ => Raise (Exn "binascii.Error" "Incorrect padding")
      end
  | c :: rest =>
      if Ascii.eqb c "="%char then
        if (2 <=? quad_pos)%nat then
          if (4 <=? quad_pos + S pads)%nat then Ret (rev out)
          else a2b_base64 rest quad_pos leftchar (S pads) out
        else a2b_base64 rest quad_pos leftchar pads out
      else
        match b64_digit c with
        | None => a2b_base64 rest quad_pos leftchar pads out
        | Some d =>
            match quad_pos with
            | 0 => a2b_base64 rest 1 d 0 out
            | 1 => a2b_base64 rest 2 (N.land d 15) 0
                     (byte_of_N (N.lor (N.shiftl leftchar 2) (N.shiftr d 4)) :: out)
            | 2 => a2b_base64 rest 3 (N.land d 3) 0
                     (byte_of_N (N.lor (N.shiftl leftchar 4) (N.shiftr d 2)) :: out)
            | _ => a2b_base64 rest 0 0%N 0
                     (byte_of_N (N.lor (N.shiftl leftchar 6) d) :: out)
            end
        end
  end.

Definition is_ascii_char (c : ascii) : bool := (N_of_ascii c <? 128)%N.

Definition reference_b64decode (s : string) : outcome (list byte) :=
  let data := list_ascii_of_string s in
  if forallb is_ascii_char data then a2b_base64 data 0 0%N 0 []
  else Raise (ValueError "string argument should contain only ASCII characters").

Definition in_range (lo hi n : N) : bool := (lo <=? n)%N && (n <=? hi)%N.

(** Well-formed UTF-8: no overlong form, no surrogate, nothing above
    U+10FFFF. *)
Fixpoint utf8_well_formed (bs : list N) : bool :=
  match bs with
  | [] => true
  | b0 :: rest =>
      if (b0 <? 128)%N then utf8_well_formed rest
      else if in_range 194 223 b0 then
        match rest with
        | b1 :: rest1 => in_range 128 191 b1 && utf8_well_formed rest1
        | _ => false
        end
      else if in_range 224 239 b0 then
        match rest with
        | b1 :: b2 :: rest2 =>
            in_range (if (b0 =? 224)%N then 160 else 128)
                     (if (b0 =? 237)%N then 159 else 191) b1
            && in_range 128 191 b2 && utf8_well_formed rest2
        | _ => false
        end
      else if in_range 240 244 b0 then
        match rest with
        | b1 :: b2 :: b3 :: rest3 =>
            in_range (if (b0 =? 240)%N then 144 else 128)
                     (if (b0 =? 244)%N then 143 else 191) b1
            && in_range 128 191 b2 && in_range 128 191 b3 && utf8_well_formed rest3
        | _ => false
        end
      else false
  end.

Definition reference_decode_utf8 (raw : list byte) : outcome string :=
  if utf8_well_formed (map Byte.to_N raw) then Ret (string_of_list_byte raw)
  else Raise (Exn "UnicodeDecodeError" "'utf-8' codec can't decode bytes").

(* ================================================================== *)
(** * Example worlds *)
(* ================================================================== *)

(** A GitHub that answers the listed URLs and 404 on every other one. *)
Definition not_found_response : response :=
  {| status_code := 404; json := Ret (PDict [("message", PStr "Not Found")]) |}.

Definition serve (routes : list (string * response)) (url : string) (_ : headers)
  : outcome response :=
  match assoc url routes with
  | Some r => Ret r
  | None => Ret not_found_response
  end.

Definition ok (body : pyval) : response := {| status_code := 200; json := Ret body |}.

(** A file answer of the contents endpoint with the given base64 text. *)
Definition file_response (content_b64 : string) : response :=
  ok (PDict [("encoding", PStr "base64"); ("content", PStr content_b64)]).

(** A model that answers every prompt with the same text. *)
Definition world_of (routes : list (string * response)) (answer : string) : World :=
  {| requests_get := serve routes;
     b64decode := reference_b64decode;
     decode_utf8 := reference_decode_utf8;
     py_repr := fun _ => "<repr>";
     genai_configure := fun _ => Ret tt;
     genai_GenerativeModel := fun _ => Ret tt;
     generate_content := fun _ _ _ => Ret {| text := Ret answer |} |}.

Definition hello_metadata : pyval :=
  PDict [("name", PStr "Hello-World"); ("stargazers_count", PInt 42);
         ("default_branch", PStr "master")].

Definition hello_tree : pyval :=
  PDict [("sha", PStr "7fd1a60"); 
         ("tree", PList [PDict [("path", PStr "README.md"); ("type", PStr "blob")];
                         PDict [("path", PStr "package.json"); ("type", PStr "blob")]])].

Definition hello_routes : list (string * response) :=
  [("https://api.github.com/repos/octocat/Hello-World", ok hello_metadata);
   ("https://api.github.com/repos/octocat/Hello-World/git/trees/master?recursive=1",
    ok hello_tree);
   ("https://api.github.com/repos/octocat/Hello-World/contents/README.md",
    file_response "SGVsbG8gV29ybGQhCg==");
   ("https://api.github.com/repos/octocat/Hello-World/contents/package.json",
    file_response "eyJuYW1lIjogImhlbGxvIn0K")].

Definition hello_world : World := world_of hello_routes "### SCORE".

(** A 5xx answer of a proxy in front of the API: the body is an HTML
    page, so [response.json()] raises. *)
Definition bad_gateway_response : response :=
  {| status_code := 502;
     json := Raise (Exn "JSONDecodeError" "Expecting value: line 1 column 1 (char 0)") |}.

Definition bad_gateway_world : World :=
  world_of [("https://api.github.com/repos/octocat/Hello-World", bad_gateway_response)]
           "### SCORE".

(** The contents endpoint answers 200 with a JSON array for a directory. *)
Definition directory_world : World :=
  world_of
    [("https://api.github.com/repos/octocat/Hello-World/contents/docs",
      ok (PList [PDict [("name", PStr "index.md"); ("path", PStr "docs/index.md");
                        ("type", PStr "file")]]))]
    "### SCORE".

(** A repository whose README.md and package.json are not UTF-8 text
    (the bytes ff fe 00 01). *)
Definition binary_files_world : World :=
  world_of
    [("https://api.github.com/repos/octocat/Hello-World", ok hello_metadata);
     ("https://api.github.com/repos/octocat/Hello-World/git/trees/master?recursive=1",
      ok hello_tree);
     ("https://api.github.com/repos/octocat/Hello-World/contents/README.md",
      file_response "//4AAQ==");
     ("https://api.github.com/repos/octocat/Hello-World/contents/package.json",
      file_response "//4AAQ==")]
    "### SCORE".

(** A repository whose README.md reads "... when the route is not found."
    and whose requirements.txt has the comment "# mirror inaccessible,
    pinned locally". *)
Definition router_world : World :=
  world_of
    [("https://api.github.com/repos/octocat/Hello-World", ok hello_metadata);
     ("https://api.github.com/repos/octocat/Hello-World/git/trees/master?recursive=1",
      ok hello_tree);
     ("https://api.github.com/repos/octocat/Hello-World/contents/README.md",
      file_response
        "IyBSb3V0ZXIKUmV0dXJucyBhIDQwNCBwYWdlIHdoZW4gdGhlIHJvdXRlIGlzIG5vdCBmb3VuZC4K");
     ("https://api.github.com/repos/octocat/Hello-World/contents/requirements.txt",
      file_response
        "Zmxhc2s9PTIuMAojIG1pcnJvciBpbmFjY2Vzc2libGUsIHBpbm5lZCBsb2NhbGx5Cg==")]
    "### SCORE".

(** Only the metadata endpoint answers. *)
Definition metadata_only_world : World :=
  world_of
    [("https://api.github.com/repos/octocat/Hello-World",
      ok (PDict [("name", PStr "Hello-World")]))]
    "### SCORE".

(** A tree answer with [n] entries [f0], [f1], ... *)
Definition numbered_entry (i : nat) : pyval :=
  PDict [("path", PStr ("f" ++ str_of_int (Z.of_nat i))); ("type", PStr "blob")].

Definition numbered_tree (n : nat) : response :=
  ok (PDict [("tree", PList (map numbered_entry (seq 0 n)))]).

(* ================================================================== *)
(** * Vocabulary of the statements *)
(* ================================================================== *)

(** [c] occurs in [s]. *)
Fixpoint occurs (c : ascii) (s : string) : bool :=
  match s with
  | EmptyString => false
  | String a rest => Ascii.eqb a c || occurs c rest
  end.

(** [s] is not empty and its last character is [c]. *)
Fixpoint ends_in (c : ascii) (s : string) : bool :=
  match s with
  | EmptyString => false
  | String a rest =>
      match rest with
      | EmptyString => Ascii.eqb a c
      | String _ _ => ends_in c rest
      end
  end.

(** The string of [n] characters [c]. *)
Fixpoint replicate (n : nat) (c : ascii) : string :=
  match n with
  | 0 => EmptyString
  | S k => String c (replicate k c)
  end.

(** The value under key [k] of a dictionary. *)
Definition field (v : pyval) (k : string) : option pyval :=
  match v with
  | PDict items => assoc k items
  | _ => None
  end.

(** The request [fetch_file_content] issues for a path, and what the call
    returns or raises. *)
Definition content_request (owner repo : string) (token : option string)
    (file_path : string) : request :=
  {| req_url := file_url owner repo file_path; req_headers := auth_headers token |}.

Definition fetch_result (w : World) (owner repo : string) (token : option string)
    (file_path : string) : outcome string :=
  r <-? requests_get w (file_url owner repo file_path) (auth_headers token) ;;
  file_content_of w file_path r.

(** The entry one round of the manifest loop adds, if any. *)
Definition dep_entry (w : World) (owner repo : string) (token : option string)
    (file_name : string) : option pyval :=
  match fetch_result w owner repo token file_name with
  | Ret content => if looks_absent content then None else Some (PStr content)
  | Raise _ => None
  end.

Definition add_entry (w : World) (owner repo : string) (token : option string)
    (dependency_content : list (string * pyval)) (file_name : string)
  : list (string * pyval) :=
  match dep_entry w owner repo token file_name with
  | Some v => dict_set dependency_content file_name v
  | None => dependency_content
  end.

Definition collected (w : World) (owner repo : string) (token : option string)
    (files : list string) (dependency_content : list (string * pyval))
  : list (string * pyval) :=
  fold_left (add_entry w owner repo token) files dependency_content.

(** The entries of the manifests found among [files], in the order of
    [files]. *)
Definition found_entries (w : World) (owner repo : string) (token : option string)
    (files : list string) : list (string * pyval) :=
  flat_map (fun f => match dep_entry w owner repo token f with
                     | Some v => [(f, v)]
                     | None => []
                     end) files.

Definition or_placeholder (dependency_content : list (string * pyval))
  : list (string * pyval) :=
  match dependency_content with
  | [] => [("status", PStr no_dependency_message)]
  | _ :: _ => dependency_content
  end.

Definition metadata_request (owner repo : string) (token : option string) : request :=
  {| req_url := api_url owner repo; req_headers := auth_headers token |}.

Definition tree_request (w : World) (owner repo : string) (token : option string)
    (default_branch : pyval) : request :=
  {| req_url := tree_url w owner repo default_branch; req_headers := auth_headers token |}.

Definition error_text (w : World) (r : response) (message : pyval) : string :=
  "Error: Could not fetch repo. Status Code: " ++ str_of_int (status_code r)
    ++ ". Message: " ++ py_str w message.

(** The two ways [get_repo_structure] returns, with the requests issued:
    the big-step reading of its body. *)
Inductive returns (w : World) (owner repo : string) (token : option string)
  : pyval * pyval -> list request -> Prop :=
| returns_error r body message :
    requests_get w (api_url owner repo) (auth_headers token) = Ret r ->
    status_code r <> 200%Z ->
    json r = Ret body ->
    py_get body "message" (PStr "Unknown error") = Ret message ->
    returns w owner repo token
      (PNone, PStr (error_text w r message))
      [metadata_request owner repo token]
| returns_snapshot r repo_data default_branch tree_response file_structure readme_content :
    requests_get w (api_url owner repo) (auth_headers token) = Ret r ->
    status_code r = 200%Z ->
    json r = Ret repo_data ->
    py_get repo_data "default_branch" (PStr "main") = Ret default_branch ->
    requests_get w (tree_url w owner repo default_branch) (auth_headers token)
      = Ret tree_response ->
    file_structure_of tree_response = Ret file_structure ->
    fetch_result w owner repo token "README.md" = Ret readme_content ->
    Forall (fun f => is_ret (fetch_result w owner repo token f) = true) dep_files ->
    returns w owner repo token
      (PDict [("metadata", repo_data);
              ("structure", PStr file_structure);
              ("readme",
               PStr (if looks_absent readme_content then no_readme_message
                     else readme_content));
              ("dependencies",
               PDict (or_placeholder (collected w owner repo token dep_files [])))],
       PNone)
      (metadata_request owner repo token
         :: tree_request w owner repo token default_branch
         :: map (content_request owner repo token) ("README.md" :: dep_files)).

(** [repo_data.get("default_branch", "main")] on a metadata object. *)
Definition default_branch_of (items : list (string * pyval)) : pyval :=
  match assoc "default_branch" items with
  | Some b => b
  | None => PStr "main"
  end.

(** What the snapshot's dependency mapping holds under [file_name]. *)
Definition dependency (snap : pyval) (file_name : string) : option pyval :=
  match field snap "dependencies" with
  | Some d => field d file_name
  | None => None
  end.

(** The body of the response is a JSON object. *)
Definition object_body (r : response) : Prop :=
  exists items, json r = Ret (PDict items).

(** The four-key shape of a snapshot. *)
Definition snapshot_of (metadata : pyval) (structure readme : string)
    (dependencies : list (string * pyval)) : pyval :=
  PDict [("metadata", metadata);
         ("structure", PStr structure);
         ("readme", PStr readme);
         ("dependencies", PDict dependencies)].

Definition hello_snapshot : pyval :=
  snapshot_of hello_metadata
    ("README.md" ++ nl ++ "package.json")
    ("Hello World!" ++ nl)
    [("package.json", PStr ("{" ++ dquote ++ "name" ++ dquote ++ ": " ++ dquote
                            ++ "hello" ++ dquote ++ "}" ++ nl))].

Definition binary_files_snapshot : pyval :=
  snapshot_of hello_metadata
    ("README.md" ++ nl ++ "package.json")
    "Error decoding README.md content."
    [("package.json", PStr "Error decoding package.json content.")].

Definition router_snapshot : pyval :=
  snapshot_of hello_metadata
    ("README.md" ++ nl ++ "package.json")
    "No README.md found."
    [("status", PStr no_dependency_message)].

Definition degraded_snapshot : pyval :=
  snapshot_of (PDict [("name", PStr "Hello-World")])
    "" "No README.md found." [("status", PStr no_dependency_message)].

(** A tree entry whose [path] is the string [p]. *)
Definition has_path (entry : pyval) (p : string) : Prop :=
  field entry "path" = Some (PStr p).

(** The file at [file_path] is served with status 200 and its payload
    decodes to [text]. *)
Definition decodes_to (w : World) (owner repo : string) (token : option string)
    (file_path text : string) : Prop :=
  exists r body payload raw,
    requests_get w (file_url owner repo file_path) (auth_headers token) = Ret r
    /\ status_code r = 200%Z
    /\ json r = Ret (PDict body)
    /\ assoc "content" body = Some (PStr payload)
    /\ b64decode w payload = Ret raw
    /\ decode_utf8 w raw = Ret text.

(** The file at [file_path] is served with status 200 and a JSON object,
    and decoding its payload raises. *)
Definition decode_fails (w : World) (owner repo : string) (token : option string)
    (file_path : string) : Prop :=
  exists r body e,
    requests_get w (file_url owner repo file_path) (auth_headers token) = Ret r
    /\ status_code r = 200%Z
    /\ json r = Ret (PDict body)
    /\ (raw <-? py_b64decode w (match assoc "content" body with
                                | Some v => v
                                | None => PStr ""
                                end) ;;
        decode_utf8 w raw) = Raise e.

(* ================================================================== *)
(** * The model list and the page *)
(* ================================================================== *)

(** An entry of [genai.list_models()]: what the program reads of it. *)
Record Model : Type := {
  name : string;
  supported_generation_methods : list string
}.

(** What iterating [genai.list_models()] does: it yields [listed], then
    stops, or raises [interrupted] (a failing call yields nothing and
    raises at once). *)
Record ModelListing : Type := {
  listed : list Model;
  interrupted : option exn
}.

(** [x in l] on a list of strings. *)
Definition py_in_list (x : string) (l : list string) : bool :=
  existsb (String.eqb x) l.

(** Lines 20-24: the loop that appends the names of the models offering
    [generateContent]. *)
Fixpoint append_supported (ms : list Model) (models : list string) : list string :=
  match ms with
  | [] => models
  | m :: rest =>
      append_supported rest
        (if py_in_list "generateContent" (supported_generation_methods m)
         then (models ++ [name m])%list
         else models)
  end.

(** [get_available_models(api_key)]; [list_models key] is the listing
    under the configured API key [key]. *)
Definition get_available_models (w : World) (list_models : string -> ModelListing)
    (api_key : string) : outcome (list string) :=
  otry (_ <-? genai_configure w api_key ;;
        let models := append_supported (listed (list_models api_key)) [] in
        match interrupted (list_models api_key) with
        | Some e => Raise e
        | None => Ret models
        end)
       (fun _ => Ret []).

(** [l.index(x)]: the first position of [x], [ValueError] when there is
    none. *)
Fixpoint py_index (x : string) (l : list string) : outcome nat :=
  match l with
  | [] => Raise (ValueError (squote ++ x ++ "' is not in list"))
  | y :: rest =>
      if String.eqb y x then Ret 0
      else i <-? py_index x rest ;; Ret (S i)
  end.

(** Lines 185-195: the index the model selection starts on. *)
Definition default_index (available_models : list string) : nat :=
  let default_model :=
    if negb (py_in_list "models/gemini-2.5-flash" available_models)
    then "models/gemini-1.5-flash"
    else "models/gemini-2.5-flash" in
  match py_index default_model available_models with
  | Ret default_ix => default_ix
  | Raise _ => 0
  end.

(** [selected_model.split('/')[-1]] *)
Definition display_name (selected_model : string) : string :=
  index_from_end (split "/" selected_model) 1.

(** [bool(s)] for a [str]. *)
Definition str_truthy (s : string) : bool := negb (String.eqb s EmptyString).

(** [bool(v)]; a float is given by its [repr]. *)
Definition py_truthy (v : pyval) : bool :=
  match v with
  | PNone => false
  | PBool b => b
  | PInt n => negb (n =? 0)%Z
  | PFloat literal => negb (String.eqb literal "0.0" || String.eqb literal "-0.0")
  | PStr s => str_truthy s
  | PList items => match items with [] => false | _ :: _ => true end
  | PDict items => match items with [] => false | _ :: _ => true end
  end.

(** What the page shows: the Streamlit calls that carry content, in the
    order they are made (a spinner is recorded when it is entered; the
    column layout carries no content). *)
Inductive element : Type :=
| st_error (body : string)
| st_success (body : string)
| st_spinner (text : string)
| st_markdown (body : string)
| st_image (image : string) (width : Z)
| st_metric (label : string) (value : pyval).

(** A computation that writes to the page and issues requests. *)
Definition UI (A : Type) : Type :=
  list element -> list request -> outcome A * list element * list request.

Definition ui_bind {A B : Type} (m : UI A) (k : A -> UI B) : UI B :=
  fun page log =>
    match m page log with
    | (Ret a, page', log') => k a page' log'
    | (Raise e, page', log') => (Raise e, page', log')
    end.

Definition emit (e : element) : UI unit :=
  fun page log => (Ret tt, (page ++ [e])%list, log).

Definition run_requests {A : Type} (m : M A) : UI A :=
  fun page log => let (o, log') := m log in (o, page, log').

Definition eval {A : Type} (o : outcome A) : UI A :=
  fun page log => (o, page, log).

Notation "x <~ m ;; k" := (ui_bind m (fun x => k))
  (at level 61, m at next level, right associativity) : py_scope.

(** The UTF-8 bytes of U+1F6A8, the sign that opens two of the messages. *)
Definition rotating_light : string :=
  String "240" (String "159" (String "154" (String "168" EmptyString))).

Definition missing_key_message : string :=
  rotating_light ++ " Please enter your Gemini API Key in the sidebar.".

Definition missing_model_message : string :=
  rotating_light ++ " Please select an AI model from the sidebar.".

Definition logo_url : string :=
  "https://github.githubassets.com/images/modules/logos_page/GitHub-Mark.png".

(** [st.metric(label=..., value=...)]: the value has to be an [int], a
    [float], a [str] or [None]; a list or a dictionary is a [TypeError],
    which ends the script run. *)
Definition metric (w : World) (label : string) (value : pyval) : UI unit :=
  match value with
  | PList _ | PDict _ =>
      eval (Raise (TypeError
                     (squote ++ py_str w value ++ "' is of type <class '"
                      ++ py_type_name value
                      ++ "'>, which is not an accepted type. value only accepts: int, float, str, or None. Please convert the value to an accepted type.")))
  | _ => emit (st_metric label value)
  end.

(** The values [st.metric] accepts. *)
Definition metric_value (value : pyval) : bool :=
  match value with
  | PList _ | PDict _ => false
  | _ => true
  end.

(** Lines 229-247: the page after the inputs are accepted. *)
Definition fetch_and_analyze (w : World) (gemini_api_key selected_model : string)
    (github_token owner repo : string) : UI unit :=
  let token_message :=
    if str_truthy github_token then " (Using provided GitHub Token)"
    else " (May hit rate limits without a token)" in
  _ <~ emit (st_spinner ("Fetching data for **" ++ owner ++ "/" ++ repo ++ "**..."
                         ++ token_message)) ;;
  result <~ run_requests (get_repo_structure w owner repo (Some github_token)) ;;
  let repo_data := fst result in
  let error := snd result in
  if py_truthy error then emit (st_error (py_str w error))
  else
    _ <~ emit (st_success "Repository data fetched! Analyzing with Gemini AI...") ;;
    _ <~ emit (st_spinner ("Generating Score, Summary, and Roadmap using **"
                           ++ display_name selected_model ++ "**...")) ;;
    analysis <~ eval (analyze_with_gemini w repo_data gemini_api_key selected_model) ;;
    _ <~ emit (st_markdown "---") ;;
    _ <~ emit (st_image logo_url 100) ;;
    _ <~ metric w "Repository" (PStr repo) ;;
    metadata <~ eval (py_getitem repo_data "metadata") ;;
    stars <~ eval (py_get metadata "stargazers_count" (PInt 0)) ;;
    _ <~ metric w "Stars" stars ;;
    emit (st_markdown analysis).

(** Lines 215-247: what a click on "Analyze Repository" does.
    [selected_model] is [None] until the sidebar offers a model. *)
Definition analyze_repository (w : World) (gemini_api_key : string)
    (selected_model : option string) (github_token repo_url : string) : UI unit :=
  if negb (str_truthy gemini_api_key) then emit (st_error missing_key_message)
  else if negb (truthy selected_model) then emit (st_error missing_model_message)
  else if negb (str_truthy repo_url) then emit (st_error "Please enter a GitHub URL.")
  else
    match selected_model, parse_github_url repo_url with
    | Some model, (Some owner, Some repo) =>
        if negb (str_truthy owner) || negb (str_truthy repo)
        then emit (st_error "Invalid GitHub URL format.")
        else fetch_and_analyze w gemini_api_key model github_token owner repo
    | _, _ => emit (st_error "Invalid GitHub URL format.")
    end.

(** The page and the requests of a click, from an empty page. *)
Definition click (w : World) (gemini_api_key : string) (selected_model : option string)
    (github_token repo_url : string) : outcome unit * list element * list request :=
  analyze_repository w gemini_api_key selected_model github_token repo_url [] [].

(** A listing of three models, one of which offers embeddings only. *)
Definition example_listing : ModelListing :=
  {| listed :=
       [{| name := "models/gemini-1.5-flash";
           supported_generation_methods := ["generateContent"; "countTokens"] |};
        {| name := "models/embedding-001";
           supported_generation_methods := ["embedContent"] |};
        {| name := "models/gemini-2.5-flash";
           supported_generation_methods := ["generateContent"; "countTokens"] |}];
     interrupted := None |}.

(** [s] starts with [p]. *)
Definition starts_with (p s : string) : bool := prefix p s.

(** The requests a complete run issues, in order. *)
Definition all_requests (w : World) (owner repo : string) (token : option string)
    (default_branch : pyval) : list request :=
  metadata_request owner repo token
    :: tree_request w owner repo token default_branch
    :: map (content_request owner repo token) ("README.md" :: dep_files).

Definition is_some {A : Type} (o : option A) : bool :=
  match o with Some _ => true | None => false end.

(** A tree listing whose second entry has no [path]. *)
Definition broken_tree_world : World :=
  world_of
    [("https://api.github.com/repos/octocat/Hello-World", ok hello_metadata);
     ("https://api.github.com/repos/octocat/Hello-World/git/trees/master?recursive=1",
      ok (PDict [("tree", PList [PDict [("path", PStr "README.md")];
                                 PDict [("type", PStr "blob")]])]))]
    "### SCORE".

(** The model offers [generateContent]. *)
Definition offers_generation (m : Model) : bool :=
  py_in_list "generateContent" (supported_generation_methods m).

(** The Hello-World repository with a directory named [Pipfile]: the
    contents endpoint answers 200 with a JSON array for it. *)
Definition pipfile_directory_world : World :=
  world_of
    (hello_routes
       ++ [("https://api.github.com/repos/octocat/Hello-World/contents/Pipfile",
            ok (PList [PDict [("name", PStr "README"); ("path", PStr "Pipfile/README");
                              ("type", PStr "file")]]))])%list
    "### SCORE".

(** The Hello-World repository when the tree request times out. *)
Definition tree_timeout : exn :=
  Exn "ConnectTimeout" "HTTPSConnectionPool(host='api.github.com', port=443): Max retries exceeded".

Definition tree_timeout_world : World :=
  {| requests_get := fun url hs =>
       if String.eqb url
            "https://api.github.com/repos/octocat/Hello-World/git/trees/master?recursive=1"
       then Raise tree_timeout
       else serve hello_routes url hs;
     b64decode := reference_b64decode;
     decode_utf8 := reference_decode_utf8;
     py_repr := fun _ => "<repr>";
     genai_configure := fun _ => Ret tt;
     genai_GenerativeModel := fun _ => Ret tt;
     generate_content := fun _ _ _ => Ret {| text := Ret "### SCORE" |} |}.

(** A repository whose tree has 250 entries and no other file. *)
Definition big_tree_world : World :=
  world_of
    [("https://api.github.com/repos/octocat/Hello-World", ok hello_metadata);
     ("https://api.github.com/repos/octocat/Hello-World/git/trees/master?recursive=1",
      numbered_tree 250)]
    "### SCORE".

(** A metadata answer whose [stargazers_count] is a list. *)
Definition odd_stars_world : World :=
  world_of
    [("https://api.github.com/repos/octocat/Hello-World",
      ok (PDict [("name", PStr "Hello-World"); ("stargazers_count", PList [PInt 1])]))]
    "### SCORE".

(* ================================================================== *)
(** * Strings: [rstrip], [split], [in] *)
(* ================================================================== *)

Section StringFacts.

Variable c : ascii.

Lemma split_not_nil (s : string) : split c s <> [].
Proof.
  induction s as [|a s IH]; simpl; [discriminate|].
  destruct (Ascii.eqb a c); [discriminate|].
  destruct (split c s); [contradiction | discriminate].
Qed.

Lemma split_app (s t : string) :
  split c (s ++ String c t) = (split c s ++ split c t)%list.
Proof.
  induction s as [|a s IH]; simpl.
  - rewrite Ascii.eqb_refl. reflexivity.
  - destruct (Ascii.eqb a c); rewrite IH; [reflexivity|].
    pose proof (split_not_nil s) as Hne.
    destruct (split c s); [contradiction | reflexivity].
Qed.

Lemma split_no_sep (s : string) : occurs c s = false -> split c s = [s].
Proof.
  induction s as [|a s IH]; simpl; intros H; [reflexivity|].
  apply orb_false_iff in H as [Ha Hs].
  rewrite Ha, (IH Hs). reflexivity.
Qed.

Lemma split_length_one (s : string) :
  length (split c s) = 1 -> occurs c s = false.
Proof.
  induction s as [|a s IH]; simpl; intros H; [reflexivity|].
  destruct (Ascii.eqb a c) eqn:Ha; simpl in *.
  - pose proof (split_not_nil s) as Hne.
    destruct (split c s); [contradiction | discriminate].
  - pose proof (split_not_nil s) as Hne.
    destruct (split c s) as [|p ps]; [contradiction|].
    apply IH. exact H.
Qed.

End StringFacts.

Lemma append_assoc (s t u : string) : (s ++ t) ++ u = s ++ (t ++ u).
Proof. induction s as [|a s IH]; simpl; [reflexivity | now rewrite IH]. Qed.

Lemma append_nil_r (s : string) : s ++ "" = s.
Proof. induction s as [|a s IH]; simpl; [reflexivity | now rewrite IH]. Qed.

Section RstripFacts.

Variable c : ascii.

Lemma rstrip_replicate (n : nat) : rstrip c (replicate n c) = "".
Proof.
  induction n as [|n IH]; simpl; [reflexivity|].
  rewrite IH, Ascii.eqb_refl. reflexivity.
Qed.

Lemma rstrip_no_sep (s : string) : occurs c s = false -> rstrip c s = s.
Proof.
  induction s as [|a s IH]; simpl; intros H; [reflexivity|].
  apply orb_false_iff in H as [Ha Hs].
  rewrite (IH Hs), Ha. destruct s; reflexivity.
Qed.

Lemma rstrip_app (s t : string) :
  rstrip c (s ++ t) =
  match rstrip c t with
  | EmptyString => rstrip c s
  | kept => s ++ kept
  end.
Proof.
  induction s as [|a s IH]; simpl.
  - destruct (rstrip c t); reflexivity.
  - rewrite IH. destruct (rstrip c t) as [|b k]; [reflexivity|].
    destruct s; reflexivity.
Qed.

Lemma rstrip_ends (s : string) : ends_in c (rstrip c s) = false.
Proof.
  induction s as [|a s IH]; simpl; [reflexivity|].
  destruct (rstrip c s) as [|b k] eqn:E.
  - destruct (Ascii.eqb a c) eqn:Ha; simpl; [reflexivity | exact Ha].
  - exact IH.
Qed.

Lemma last_split_empty (s : string) :
  last (split c s) "" = "" -> s = "" \/ ends_in c s = true.
Proof.
  induction s as [|a s IH]; [now left|].
  intros H. right. simpl in H.
  pose proof (split_not_nil c s) as Hne.
  destruct (Ascii.eqb a c) eqn:Ha.
  - destruct (split c s) as [|p ps] eqn:E; [contradiction|].
    change (last (p :: ps) "" = "") in H.
    destruct (IH H) as [-> | Hs]; simpl; [exact Ha|].
    destruct s; [discriminate | exact Hs].
  - destruct (split c s) as [|p ps] eqn:E; [contradiction|].
    destruct ps as [|q qs]; [discriminate H|].
    change (last (q :: qs) "" = "") in H.
    destruct (IH H) as [-> | Hs]; [discriminate E|].
    simpl. destruct s; [discriminate | exact Hs].
Qed.

End RstripFacts.

Lemma nth_pred_length_last {A : Type} (l : list A) (d : A) :
  nth (length l - 1) l d = last l d.
Proof.
  induction l as [|x l IH]; [reflexivity|].
  destruct l as [|y l]; [reflexivity|].
  simpl in *. rewrite Nat.sub_0_r in IH. exact IH.
Qed.

Lemma index_from_end_two (l : list string) (a b : string) :
  index_from_end (l ++ [a; b]) 2 = a /\ index_from_end (l ++ [a; b]) 1 = b.
Proof.
  unfold index_from_end. rewrite length_app. simpl length. split.
  - replace (length l + 2 - 2) with (length l) by lia. apply nth_middle.
  - replace (length l + 2 - 1) with (length l + 1) by lia.
    rewrite app_nth2_plus. reflexivity.
Qed.

(** [needle in haystack] is true whenever the needle stands somewhere in
    the haystack. *)
Lemma prefix_app (n s : string) : prefix n (n ++ s) = true.
Proof.
  induction n as [|a n IH]; simpl; [now destruct s|].
  destruct (ascii_dec a a); [exact IH | contradiction].
Qed.

Lemma contains_prefix (n s : string) : prefix n s = true -> contains n s = true.
Proof.
  intros H. destruct s as [|a s]; [exact H|].
  change (prefix n (String a s) || contains n s = true).
  now rewrite H.
Qed.

Lemma contains_app (n a b : string) : contains n (a ++ n ++ b) = true.
Proof.
  induction a as [|x a IH]; simpl.
  - apply contains_prefix, prefix_app.
  - rewrite IH. apply orb_true_r.
Qed.

(* ================================================================== *)
(** * [parse_github_url] *)
(* ================================================================== *)

Lemma parse_github_url_parts (url : string) (l : list string) (owner repo : string) :
  split "/" (rstrip "/" url) = (l ++ [owner; repo])%list ->
  parse_github_url url = (Some owner, Some repo).
Proof.
  intros H. unfold parse_github_url. rewrite H.
  destruct (index_from_end_two l owner repo) as [-> ->].
  rewrite length_app. simpl length.
  destruct (Nat.ltb_spec (length l + 2) 2) as [Hlt|_]; [lia | reflexivity].
Qed.

Lemma parse_github_url_none (url : string) :
  parse_github_url url = (None, None) <-> length (split "/" (rstrip "/" url)) = 1.
Proof.
  unfold parse_github_url.
  pose proof (split_not_nil "/" (rstrip "/" url)) as Hne.
  destruct (split "/" (rstrip "/" url)) as [|p ps]; [contradiction|].
  destruct (Nat.ltb_spec (length (p :: ps)) 2) as [Hlt|Hge]; simpl in *.
  - split; [lia | reflexivity].
  - split; [discriminate | lia].
Qed.

(** C2, as the code has it: a string [.../owner/repo] followed by any
    number of slashes, where neither name contains a slash and [repo] is
    not empty, parses to exactly [(owner, repo)]; parsing fails exactly
    when the string, stripped of its trailing slashes, contains no slash
    (fewer than two slash-separated pieces, whatever the pieces are);
    and a successful parse has a non-empty [repo]. *)
Theorem parse_github_url_spec :
  (forall base owner repo n,
      base = "" \/ (exists pre, base = pre ++ "/") ->
      occurs "/" owner = false -> occurs "/" repo = false -> repo <> "" ->
      parse_github_url (base ++ owner ++ "/" ++ repo ++ replicate n "/")
      = (Some owner, Some repo))
  /\ (forall url,
         parse_github_url url = (None, None) <-> occurs "/" (rstrip "/" url) = false)
  /\ (forall url owner repo,
         parse_github_url url = (Some owner, Some repo) -> repo <> "").
Proof.
  split; [|split].
  - intros base owner repo n Hbase Ho Hr Hne.
    assert (Hstrip : rstrip "/" (base ++ owner ++ "/" ++ repo ++ replicate n "/")
                     = base ++ owner ++ "/" ++ repo).
    { rewrite <- !append_assoc. rewrite rstrip_app, rstrip_replicate.
      rewrite rstrip_app, (rstrip_no_sep _ _ Hr).
      destruct repo; [contradiction | reflexivity]. }
    assert (Hsplit : exists l, split "/" (base ++ owner ++ "/" ++ repo)
                               = (l ++ [owner; repo])%list).
    { destruct Hbase as [-> | [pre ->]].
      - exists []. simpl append at 1.
        change (owner ++ "/" ++ repo) with (owner ++ String "/" repo).
        rewrite split_app, (split_no_sep _ _ Ho), (split_no_sep _ _ Hr). reflexivity.
      - exists (split "/" pre).
        replace ((pre ++ "/") ++ owner ++ "/" ++ repo)
          with (pre ++ String "/" (owner ++ String "/" repo))
          by (now rewrite append_assoc).
        rewrite !split_app, (split_no_sep _ _ Ho), (split_no_sep _ _ Hr). reflexivity. }
    destruct Hsplit as [l Hl].
    apply (parse_github_url_parts _ l). rewrite Hstrip. exact Hl.
  - intros url. rewrite parse_github_url_none. split.
    + apply split_length_one.
    + intros H. rewrite (split_no_sep _ _ H). reflexivity.
  - intros url owner repo H Hrepo.
    unfold parse_github_url in H.
    destruct (length (split "/" (rstrip "/" url)) <? 2)%nat eqn:Hlen; [discriminate|].
    injection H as _ Hr.
    unfold index_from_end in Hr. rewrite nth_pred_length_last, Hrepo in Hr.
    destruct (last_split_empty _ _ Hr) as [Hempty | Hends].
    + rewrite Hempty in Hlen. discriminate Hlen.
    + rewrite rstrip_ends in Hends. discriminate Hends.
Qed.

(** C2 as stated fails: [https://github.com/octocat] has a single path
    segment, [octocat], and parses to the owner [github.com] and the
    repository [octocat]; and [https://x] parses with an empty owner. *)
Lemma parse_github_url_one_path_segment :
  parse_github_url "https://github.com/octocat" = (Some "github.com", Some "octocat")
  /\ parse_github_url "https://x" = (Some "", Some "x").
Proof. split; reflexivity. Qed.

Example parse_github_url_hello :
  parse_github_url "https://github.com/octocat/Hello-World/"
  = (Some "octocat", Some "Hello-World").
Proof. reflexivity. Qed.

(* ================================================================== *)
(** * Runs of the fetching functions *)
(* ================================================================== *)

Lemma absent_test (content : string) :
  negb (contains "not found" content) && negb (contains "inaccessible" content)
  = negb (looks_absent content).
Proof. unfold looks_absent. now rewrite negb_orb. Qed.

Lemma or_placeholder_eq (d : list (string * pyval)) :
  match d with
  | [] => dict_set d "status" (PStr no_dependency_message)
  | _ :: _ => d
  end = or_placeholder d.
Proof. destruct d; reflexivity. Qed.

Section Runs.

Variable w : World.
Variables owner repo : string.
Variable token : option string.

Lemma fetch_file_content_run (file_path : string) (log : list request) :
  fetch_file_content w owner repo file_path token log
  = (fetch_result w owner repo token file_path,
     log ++ [content_request owner repo token file_path])%list.
Proof.
  unfold fetch_file_content, fetch_result, bind, http_get, lift, obind.
  destruct (requests_get w (file_url owner repo file_path) (auth_headers token));
    reflexivity.
Qed.

Lemma collect_dependencies_step (file_name : string) (rest : list string)
    (acc : list (string * pyval)) (log : list request) :
  collect_dependencies w owner repo token (file_name :: rest) acc log
  = match fetch_result w owner repo token file_name with
    | Ret _ =>
        collect_dependencies w owner repo token rest
          (add_entry w owner repo token acc file_name)
          (log ++ [content_request owner repo token file_name])%list
    | Raise e => (Raise e, (log ++ [content_request owner repo token file_name])%list)
    end.
Proof.
  cbn [collect_dependencies]. unfold bind at 1.
  rewrite fetch_file_content_run.
  unfold add_entry, dep_entry.
  destruct (fetch_result w owner repo token file_name) as [content|e]; [|reflexivity].
  rewrite absent_test. destruct (looks_absent content); reflexivity.
Qed.

(** The log only grows. *)
Lemma collect_dependencies_log (files : list string) :
  forall acc log, exists extra,
    snd (collect_dependencies w owner repo token files acc log) = (log ++ extra)%list.
Proof.
  induction files as [|f rest IH]; intros acc log.
  - exists []. simpl. now rewrite app_nil_r.
  - rewrite collect_dependencies_step.
    destruct (fetch_result w owner repo token f).
    + destruct (IH (add_entry w owner repo token acc f)
                   (log ++ [content_request owner repo token f])%list) as [extra ->].
      eexists. rewrite <- app_assoc. reflexivity.
    + eexists. reflexivity.
Qed.

Lemma collect_dependencies_ret (files : list string) :
  forall acc log d log',
    collect_dependencies w owner repo token files acc log = (Ret d, log')
    <-> Forall (fun f => is_ret (fetch_result w owner repo token f) = true) files
        /\ d = collected w owner repo token files acc
        /\ log' = (log ++ map (content_request owner repo token) files)%list.
Proof.
  induction files as [|f rest IH]; intros acc log d log'.
  - simpl. unfold ret. rewrite app_nil_r. split.
    + intros H. inversion H. auto.
    + intros (_ & -> & ->). reflexivity.
  - rewrite collect_dependencies_step. simpl map. unfold collected. simpl fold_left.
    destruct (fetch_result w owner repo token f) as [content|e] eqn:Hf.
    + rewrite IH, <- app_assoc. simpl app. split.
      * intros (Hall & -> & ->). split; [|split; reflexivity].
        constructor; [now rewrite Hf | exact Hall].
      * intros (Hall & -> & ->). inversion Hall. auto.
    + split; [discriminate|].
      intros (Hall & _). inversion Hall as [|? ? Hhd _]. rewrite Hf in Hhd. discriminate.
Qed.

Lemma get_repo_structure_returns (v : pyval * pyval) (log : list request) :
  get_repo_structure w owner repo token [] = (Ret v, log)
  <-> returns w owner repo token v log.
Proof.
  split.
  - unfold get_repo_structure, bind, http_get, lift, ret. simpl app.
    destruct (requests_get w (api_url owner repo) (auth_headers token))
      as [r|e] eqn:Hmeta; [|discriminate].
    destruct (status_code r =? 200)%Z eqn:Hst; cbn [negb].
    + apply Z.eqb_eq in Hst.
      destruct (json r) as [repo_data|e] eqn:Hjson; [|discriminate].
      destruct (py_get repo_data "default_branch" (PStr "main"))
        as [branch|e] eqn:Hbranch; [|discriminate].
      destruct (requests_get w (tree_url w owner repo branch) (auth_headers token))
        as [tr|e] eqn:Htree; [|discriminate].
      destruct (file_structure_of tr) as [fs|e] eqn:Hfs; [|discriminate].
      rewrite fetch_file_content_run.
      destruct (fetch_result w owner repo token "README.md") as [rc|e] eqn:Hreadme;
        [|discriminate].
      simpl app.
      match goal with
      | |- context [collect_dependencies w owner repo token dep_files [] ?l] =>
          destruct (collect_dependencies w owner repo token dep_files [] l)
            as [[d|e] log1] eqn:Hdeps
      end; [|discriminate].
      apply collect_dependencies_ret in Hdeps as (Hall & -> & ->).
      rewrite or_placeholder_eq. intros H. inversion H; subst.
      eapply returns_snapshot; eauto.
    + apply Z.eqb_neq in Hst.
      destruct (json r) as [body|e] eqn:Hjson; [|discriminate].
      destruct (py_get body "message" (PStr "Unknown error"))
        as [message|e] eqn:Hmsg; [|discriminate].
      intros H. inversion H; subst.
      eapply returns_error; eauto.
  - intros H. unfold get_repo_structure, bind, http_get, lift, ret. simpl app.
    destruct H as [r body message Hmeta Hst Hjson Hmsg
                  | r repo_data branch tr fs rc Hmeta Hst Hjson Hbranch Htree Hfs
                      Hreadme Hall].
    + rewrite Hmeta. apply Z.eqb_neq in Hst. rewrite Hst. cbn [negb].
      rewrite Hjson, Hmsg. reflexivity.
    + rewrite Hmeta. apply Z.eqb_eq in Hst. rewrite Hst. cbn [negb].
      rewrite Hjson, Hbranch, Htree, Hfs, fetch_file_content_run, Hreadme.
      simpl app.
      match goal with
      | |- context [collect_dependencies w owner repo token dep_files [] ?l] =>
          rewrite (proj2 (collect_dependencies_ret dep_files [] l _ _)
                         (conj Hall (conj eq_refl eq_refl)))
      end.
      rewrite or_placeholder_eq. reflexivity.
Qed.

End Runs.

(* ================================================================== *)
(** * The dependency dictionary *)
(* ================================================================== *)

Section Dictionaries.

Context {V : Type}.

Lemma dict_set_fresh (d : list (string * V)) (k : string) (v : V) :
  assoc k d = None -> dict_set d k v = (d ++ [(k, v)])%list.
Proof.
  induction d as [|[k' v'] d IH]; simpl; intros H; [reflexivity|].
  destruct (String.eqb k k'); [discriminate|]. now rewrite IH.
Qed.

Lemma assoc_app (d d' : list (string * V)) (k : string) :
  assoc k (d ++ d') = match assoc k d with Some v => Some v | None => assoc k d' end.
Proof.
  induction d as [|[k' v'] d IH]; simpl; [reflexivity|].
  destruct (String.eqb k k'); [reflexivity | exact IH].
Qed.

End Dictionaries.

Lemma dep_files_NoDup : NoDup dep_files.
Proof.
  unfold dep_files.
  repeat (constructor; [simpl; intuition discriminate|]). constructor.
Qed.

Lemma dep_files_not_status (f : string) : In f dep_files -> String.eqb f "status" = false.
Proof.
  unfold dep_files. simpl. intuition (subst; reflexivity).
Qed.

Section Dependencies.

Variable w : World.
Variables owner repo : string.
Variable token : option string.

Local Abbreviation found := (found_entries w owner repo token).
Local Abbreviation entry := (dep_entry w owner repo token).

Lemma assoc_found_out (files : list string) (f : string) :
  ~ In f files -> assoc f (found files) = None.
Proof.
  induction files as [|g rest IH]; simpl; intros Hin; [reflexivity|].
  rewrite assoc_app, IH by tauto.
  destruct (dep_entry w owner repo token g); simpl; [|reflexivity].
  destruct (String.eqb_spec f g) as [->|_]; [tauto | reflexivity].
Qed.

Lemma assoc_found_in (files : list string) (f : string) :
  NoDup files -> In f files -> assoc f (found files) = entry f.
Proof.
  induction files as [|g rest IH]; simpl; intros Hnd Hin; [contradiction|].
  inversion Hnd as [|? ? Hout Hnd']; subst. rewrite assoc_app.
  destruct (String.eqb_spec f g) as [->|Hfg].
  - destruct (dep_entry w owner repo token g); simpl.
    + now rewrite String.eqb_refl.
    + now apply assoc_found_out.
  - destruct Hin as [->|Hin]; [contradiction|].
    rewrite (IH Hnd' Hin).
    destruct (dep_entry w owner repo token g); simpl; [|reflexivity].
    destruct (String.eqb_spec f g); [contradiction | reflexivity].
Qed.

Lemma collected_found (files : list string) :
  forall acc,
    NoDup files ->
    (forall f, In f files -> assoc f acc = None) ->
    collected w owner repo token files acc = (acc ++ found files)%list.
Proof.
  unfold collected.
  induction files as [|g rest IH]; intros acc Hnd Hfresh; simpl.
  - now rewrite app_nil_r.
  - inversion Hnd as [|? ? Hout Hnd']; subst.
    unfold add_entry at 2.
    destruct (dep_entry w owner repo token g) as [v|].
    + rewrite dict_set_fresh by (apply Hfresh; now left).
      rewrite IH; [now rewrite <- app_assoc | exact Hnd' |].
      intros f Hf. rewrite assoc_app, Hfresh by now right.
      simpl. destruct (String.eqb_spec f g) as [->|_]; [contradiction | reflexivity].
    + apply IH; [exact Hnd'|]. intros f Hf. apply Hfresh. now right.
Qed.

Lemma collected_dep_files :
  collected w owner repo token dep_files [] = found dep_files.
Proof.
  apply (collected_found dep_files []); [exact dep_files_NoDup | reflexivity].
Qed.

Lemma found_nil (files : list string) :
  found files = [] <-> Forall (fun f => entry f = None) files.
Proof.
  induction files as [|g rest IH]; simpl.
  - split; [constructor | reflexivity].
  - split.
    + intros H. apply app_eq_nil in H as [Hg Hrest].
      constructor; [|now apply IH].
      destruct (dep_entry w owner repo token g); [discriminate | reflexivity].
    + intros H. inversion H as [|? ? Hg Hrest]; subst.
      rewrite Hg. simpl. now apply IH.
Qed.

(** What the returned mapping holds under a manifest name. *)
Lemma dependencies_lookup (f : string) :
  In f dep_files -> assoc f (or_placeholder (found dep_files)) = entry f.
Proof.
  intros Hin. destruct (found dep_files) as [|kv kvs] eqn:E.
  - simpl. rewrite (dep_files_not_status f Hin).
    apply found_nil in E. rewrite Forall_forall in E. symmetry. now apply E.
  - simpl or_placeholder. rewrite <- E.
    apply assoc_found_in; [exact dep_files_NoDup | exact Hin].
Qed.

Lemma or_placeholder_length (d : list (string * pyval)) :
  1 <= length (or_placeholder d).
Proof. destruct d; simpl; lia. Qed.

End Dependencies.

(* ================================================================== *)
(** * What one content request yields *)
(* ================================================================== *)

Lemma not_found_message_absent (file_path : string) :
  contains "not found" (not_found_message file_path) = true.
Proof.
  unfold not_found_message.
  replace ("File " ++ file_path ++ " not found or inaccessible.")
    with (("File " ++ file_path ++ " ") ++ "not found" ++ " or inaccessible.")
    by (now rewrite !append_assoc).
  apply contains_app.
Qed.

Section Fetching.

Variable w : World.
Variables owner repo : string.
Variable token : option string.

Local Abbreviation get path :=
  (requests_get w (file_url owner repo path) (auth_headers token)).
Local Abbreviation fetched path := (fetch_result w owner repo token path).

Lemma fetch_result_raise (path : string) (e : exn) :
  get path = Raise e -> fetched path = Raise e.
Proof. intros H. unfold fetch_result. now rewrite H. Qed.

Lemma fetch_result_not_200 (path : string) (r : response) :
  get path = Ret r -> status_code r <> 200%Z ->
  fetched path = Ret (not_found_message path).
Proof.
  intros H Hst. unfold fetch_result, file_content_of. rewrite H. simpl.
  apply Z.eqb_neq in Hst. now rewrite Hst.
Qed.

Lemma fetch_result_200 (path : string) (r : response) (body : list (string * pyval)) :
  get path = Ret r -> status_code r = 200%Z -> json r = Ret (PDict body) ->
  fetched path
  = otry (raw <-? py_b64decode w (match assoc "content" body with
                                  | Some v => v
                                  | None => PStr ""
                                  end) ;;
          decode_utf8 w raw)
         (fun _ => Ret (decode_error_message path)).
Proof.
  intros H Hst Hjson. unfold fetch_result, file_content_of. rewrite H. simpl.
  apply Z.eqb_eq in Hst. now rewrite Hst, Hjson.
Qed.

Lemma fetch_result_not_object (path : string) (r : response) (body : pyval) :
  get path = Ret r -> status_code r = 200%Z -> json r = Ret body ->
  (forall items, body <> PDict items) ->
  fetched path = Raise (AttributeError body "get").
Proof.
  intros H Hst Hjson Hbody. unfold fetch_result, file_content_of. rewrite H. simpl.
  apply Z.eqb_eq in Hst. rewrite Hst, Hjson. simpl.
  destruct body; try reflexivity. now elim (Hbody items).
Qed.

Lemma fetch_result_decodes (path text : string) :
  decodes_to w owner repo token path text -> fetched path = Ret text.
Proof.
  intros (r & body & payload & raw & H & Hst & Hjson & Hc & Hb & Hu).
  rewrite (fetch_result_200 path r body H Hst Hjson), Hc. simpl.
  rewrite Hb. simpl. now rewrite Hu.
Qed.

Lemma fetch_result_decode_fails (path : string) :
  decode_fails w owner repo token path ->
  fetched path = Ret (decode_error_message path).
Proof.
  intros (r & body & e & H & Hst & Hjson & He).
  rewrite (fetch_result_200 path r body H Hst Hjson), He. reflexivity.
Qed.

(** No exception leaves the call when the status is not 200 or the body
    is a JSON object. *)
Lemma fetch_result_total (path : string) (r : response) :
  get path = Ret r ->
  status_code r <> 200%Z \/ (exists body, json r = Ret (PDict body)) ->
  exists content, fetched path = Ret content.
Proof.
  intros H Hcase. destruct (Z.eq_dec (status_code r) 200) as [Hst|Hst].
  - destruct Hcase as [Hne | [body Hjson]]; [contradiction|].
    rewrite (fetch_result_200 path r body H Hst Hjson).
    destruct (obind _ _); simpl; eauto.
  - rewrite (fetch_result_not_200 path r H Hst). eauto.
Qed.

Lemma dep_entry_absent (path content : string) :
  fetched path = Ret content -> looks_absent content = true ->
  dep_entry w owner repo token path = None.
Proof. intros H Ha. unfold dep_entry. now rewrite H, Ha. Qed.

Lemma dep_entry_present (path content : string) :
  fetched path = Ret content -> looks_absent content = false ->
  dep_entry w owner repo token path = Some (PStr content).
Proof. intros H Ha. unfold dep_entry. now rewrite H, Ha. Qed.

End Fetching.

(* ================================================================== *)
(** * The file structure *)
(* ================================================================== *)

Lemma Forall2_firstn {A B : Type} (R : A -> B -> Prop) (n : nat) :
  forall l l', Forall2 R l l' -> Forall2 R (firstn n l) (firstn n l').
Proof.
  induction n as [|n IH]; intros l l' H; [constructor|].
  destruct H; simpl; constructor; auto.
Qed.

Lemma py_map_getitem_paths (items : list pyval) (paths : list string) :
  Forall2 has_path items paths ->
  py_map_getitem items "path" = Ret (map PStr paths).
Proof.
  induction 1 as [|item p items paths Hp _ IH]; [reflexivity|].
  simpl. unfold has_path, field in Hp. unfold py_getitem.
  destruct item; try discriminate. rewrite Hp, IH. reflexivity.
Qed.

Lemma str_items_strings (paths : list string) :
  forall i, str_items (map PStr paths) i = Ret paths.
Proof.
  induction paths as [|p paths IH]; intros i; [reflexivity|].
  simpl. now rewrite IH.
Qed.

Lemma file_structure_of_failure (tr : response) :
  status_code tr <> 200%Z -> file_structure_of tr = Ret "".
Proof.
  intros H. unfold file_structure_of. apply Z.eqb_neq in H. now rewrite H.
Qed.

Lemma file_structure_of_success (tr : response) (body : list (string * pyval))
    (entries : list pyval) (paths : list string) :
  status_code tr = 200%Z ->
  json tr = Ret (PDict body) ->
  assoc "tree" body = Some (PList entries) ->
  Forall2 has_path (firstn 100 entries) paths ->
  file_structure_of tr = Ret (String.concat nl paths).
Proof.
  intros Hst Hjson Htree Hpaths. unfold file_structure_of.
  apply Z.eqb_eq in Hst. rewrite Hst, Hjson. cbn [obind py_get]. rewrite Htree.
  cbn [obind py_slice_items]. rewrite (py_map_getitem_paths _ _ Hpaths).
  cbn [obind]. unfold py_join. now rewrite str_items_strings.
Qed.

(* ================================================================== *)
(** * Properties of [fetch_file_content] *)
(* ================================================================== *)

Lemma fetch_file_content_result (w : World) (owner repo path : string)
    (token : option string) :
  result_of (fetch_file_content w owner repo path token)
  = fetch_result w owner repo token path.
Proof. unfold result_of. now rewrite fetch_file_content_run. Qed.

Lemma get_repo_structure_result (w : World) (owner repo : string)
    (token : option string) (v : pyval * pyval) :
  result_of (get_repo_structure w owner repo token) = Ret v
  <-> exists log, returns w owner repo token v log.
Proof.
  unfold result_of. split.
  - intros H. destruct (get_repo_structure w owner repo token []) as [o log] eqn:E.
    simpl in H. subst o. exists log. now apply get_repo_structure_returns.
  - intros [log H]. apply get_repo_structure_returns in H. now rewrite H.
Qed.

(** C6, as the code has it: the call issues one request; on a 200 answer
    whose body is a JSON object with a payload that decodes, it returns
    the decoded text exactly; on any answer that is not 200 it returns the
    absence string, which contains "not found"; it raises nothing when the
    answer is not 200 or is a JSON object; and it does raise when the
    request raises, when the body of a 200 answer is not JSON, or when
    that body is JSON but not an object. *)
Theorem fetch_file_content_spec (w : World) (owner repo : string)
    (token : option string) (path : string) :
  requests_of (fetch_file_content w owner repo path token)
  = [content_request owner repo token path]
  /\ (forall text,
         decodes_to w owner repo token path text ->
         result_of (fetch_file_content w owner repo path token) = Ret text)
  /\ (forall r,
         requests_get w (file_url owner repo path) (auth_headers token) = Ret r ->
         status_code r <> 200%Z ->
         result_of (fetch_file_content w owner repo path token)
         = Ret ("File " ++ path ++ " not found or inaccessible.")
         /\ contains "not found" ("File " ++ path ++ " not found or inaccessible.") = true)
  /\ (forall r,
         requests_get w (file_url owner repo path) (auth_headers token) = Ret r ->
         status_code r <> 200%Z \/ object_body r ->
         exists content,
           result_of (fetch_file_content w owner repo path token) = Ret content)
  /\ (forall e,
         requests_get w (file_url owner repo path) (auth_headers token) = Raise e ->
         result_of (fetch_file_content w owner repo path token) = Raise e)
  /\ (forall r e,
         requests_get w (file_url owner repo path) (auth_headers token) = Ret r ->
         status_code r = 200%Z -> json r = Raise e ->
         result_of (fetch_file_content w owner repo path token) = Raise e)
  /\ (forall r body,
         requests_get w (file_url owner repo path) (auth_headers token) = Ret r ->
         status_code r = 200%Z -> json r = Ret body ->
         (forall items, body <> PDict items) ->
         result_of (fetch_file_content w owner repo path token)
         = Raise (AttributeError body "get")).
Proof.
  rewrite fetch_file_content_result.
  split; [|split; [|split; [|split; [|split; [|split]]]]].
  - unfold requests_of. now rewrite fetch_file_content_run.
  - apply fetch_result_decodes.
  - intros r H Hst. split.
    + exact (fetch_result_not_200 w owner repo token path r H Hst).
    + apply not_found_message_absent.
  - intros r H Hcase. exact (fetch_result_total w owner repo token path r H Hcase).
  - apply fetch_result_raise.
  - intros r e H Hst Hjson. unfold fetch_result, file_content_of. rewrite H. simpl.
    apply Z.eqb_eq in Hst. now rewrite Hst, Hjson.
  - intros r body. apply fetch_result_not_object.
Qed.

(** C6 as stated fails: for the directory [docs] the contents endpoint
    answers 200 with a JSON array, and the call raises [AttributeError]. *)
Lemma fetch_file_content_raises_on_directory :
  (r <-? requests_get directory_world
           (file_url "octocat" "Hello-World" "docs") (auth_headers None) ;;
   Ret (status_code r)) = Ret 200%Z
  /\ result_of (fetch_file_content directory_world "octocat" "Hello-World" "docs" None)
     = Raise (Exn "AttributeError" "'list' object has no attribute 'get'").
Proof. split; vm_compute; reflexivity. Qed.

Example fetch_file_content_hello :
  result_of (fetch_file_content hello_world "octocat" "Hello-World" "README.md" None)
  = Ret ("Hello World!" ++ nl)
  /\ result_of (fetch_file_content hello_world "octocat" "Hello-World" "Pipfile" None)
     = Ret "File Pipfile not found or inaccessible.".
Proof. split; vm_compute; reflexivity. Qed.

(* ================================================================== *)
(** * Absence detection in [get_repo_structure] *)
(* ================================================================== *)

Section Snapshot.

Variable w : World.
Variables owner repo : string.
Variable token : option string.

(** The fields of a returned snapshot, read off the run. *)
Lemma snapshot_fields (snap : pyval) :
  result_of (get_repo_structure w owner repo token) = Ret (snap, PNone) ->
  exists r repo_data default_branch tree_response file_structure readme_content,
    requests_get w (api_url owner repo) (auth_headers token) = Ret r
    /\ status_code r = 200%Z
    /\ json r = Ret repo_data
    /\ py_get repo_data "default_branch" (PStr "main") = Ret default_branch
    /\ requests_get w (tree_url w owner repo default_branch) (auth_headers token)
       = Ret tree_response
    /\ file_structure_of tree_response = Ret file_structure
    /\ fetch_result w owner repo token "README.md" = Ret readme_content
    /\ Forall (fun f => is_ret (fetch_result w owner repo token f) = true) dep_files
    /\ snap = snapshot_of repo_data file_structure
                (if looks_absent readme_content then no_readme_message
                 else readme_content)
                (or_placeholder (found_entries w owner repo token dep_files))
    /\ requests_of (get_repo_structure w owner repo token)
       = metadata_request owner repo token
           :: tree_request w owner repo token default_branch
           :: map (content_request owner repo token) ("README.md" :: dep_files).
Proof.
  intros H. pose proof H as H'.
  apply get_repo_structure_result in H as [log H].
  apply get_repo_structure_returns in H as Hrun.
  inversion H; subst.
  exists r, repo_data, default_branch, tree_response, file_structure, readme_content.
  rewrite <- collected_dep_files.
  unfold requests_of. rewrite Hrun. simpl snd.
  repeat (split; [assumption|]). split; reflexivity.
Qed.

Lemma readme_field (snap : pyval) (content : string) :
  result_of (get_repo_structure w owner repo token) = Ret (snap, PNone) ->
  fetch_result w owner repo token "README.md" = Ret content ->
  field snap "readme"
  = Some (PStr (if looks_absent content then no_readme_message else content)).
Proof.
  intros H Hc.
  destruct (snapshot_fields snap H)
    as (r & md & b & tr & fs & rc & _ & _ & _ & _ & _ & _ & Hrc & _ & -> & _).
  rewrite Hc in Hrc. injection Hrc as <-. reflexivity.
Qed.

Lemma dependency_field (snap : pyval) (f : string) :
  result_of (get_repo_structure w owner repo token) = Ret (snap, PNone) ->
  In f dep_files ->
  dependency snap f = dep_entry w owner repo token f.
Proof.
  intros H Hin.
  destruct (snapshot_fields snap H)
    as (r & md & b & tr & fs & rc & _ & _ & _ & _ & _ & _ & _ & _ & -> & _).
  unfold dependency. simpl. now apply dependencies_lookup.
Qed.

End Snapshot.

Lemma decode_error_message_kept (path : string) :
  In path ("README.md" :: dep_files) -> looks_absent (decode_error_message path) = false.
Proof.
  unfold dep_files. simpl. intuition (subst; vm_compute; reflexivity).
Qed.

(** C3, as the code has it: when a content request is answered 200 with a
    JSON object whose payload does not decode, [fetch_file_content]
    returns "Error decoding <path> content."; for README.md and for each
    of the seven manifest names that string contains neither "not found"
    nor "inaccessible", so the snapshot keeps it as the content of the
    file: it is the [readme] field, or the value under the manifest's
    name in the dependency mapping. *)
Theorem decode_failure_spec (w : World) (owner repo : string) (token : option string) :
  (forall path,
      decode_fails w owner repo token path ->
      result_of (fetch_file_content w owner repo path token)
      = Ret ("Error decoding " ++ path ++ " content."))
  /\ (forall path,
         In path ("README.md" :: dep_files) ->
         contains "not found" ("Error decoding " ++ path ++ " content.") = false
         /\ contains "inaccessible" ("Error decoding " ++ path ++ " content.") = false)
  /\ (forall snap,
         result_of (get_repo_structure w owner repo token) = Ret (snap, PNone) ->
         (decode_fails w owner repo token "README.md" ->
          field snap "readme" = Some (PStr "Error decoding README.md content."))
         /\ (forall f,
                In f dep_files ->
                decode_fails w owner repo token f ->
                dependency snap f
                = Some (PStr ("Error decoding " ++ f ++ " content.")))).
Proof.
  split; [|split].
  - intros path H. rewrite fetch_file_content_result.
    now apply fetch_result_decode_fails.
  - intros path H. apply decode_error_message_kept in H.
    unfold looks_absent in H. now apply orb_false_iff in H.
  - intros snap Hrun. split.
    + intros H. apply fetch_result_decode_fails in H.
      rewrite (readme_field w owner repo token snap _ Hrun H). reflexivity.
    + intros f Hin H. apply fetch_result_decode_fails in H.
      rewrite (dependency_field w owner repo token snap f Hrun Hin).
      apply (dep_entry_present w owner repo token f _ H).
      apply decode_error_message_kept. now right.
Qed.

(** C3 as stated fails: README.md and package.json are served with the
    base64 text of the bytes ff fe 00 01, which is not UTF-8; the fetch
    returns "Error decoding README.md content.", no absence test matches
    it, and the snapshot carries the two error strings as the README and
    as the content of package.json. *)
Lemma decode_failure_is_kept_as_content :
  (raw <-? reference_b64decode "//4AAQ==" ;; reference_decode_utf8 raw)
  = Raise (Exn "UnicodeDecodeError" "'utf-8' codec can't decode bytes")
  /\ result_of (fetch_file_content binary_files_world
                  "octocat" "Hello-World" "README.md" None)
     = Ret "Error decoding README.md content."
  /\ contains "not found" "Error decoding README.md content." = false
  /\ contains "inaccessible" "Error decoding README.md content." = false
  /\ result_of (get_repo_structure binary_files_world "octocat" "Hello-World" None)
     = Ret (snapshot_of hello_metadata
              ("README.md" ++ nl ++ "package.json")
              "Error decoding README.md content."
              [("package.json", PStr "Error decoding package.json content.")],
            PNone).
Proof. repeat split; vm_compute; reflexivity. Qed.

(** C9: a file that is fetched and decoded, and whose own text contains
    "not found" or "inaccessible", is taken for absent: as README.md it
    is replaced by "No README.md found.", as a manifest it gets no entry
    in the dependency mapping. *)
Theorem sentinel_text_is_taken_for_absent (w : World) (owner repo : string)
    (token : option string) (snap : pyval) :
  result_of (get_repo_structure w owner repo token) = Ret (snap, PNone) ->
  (forall text,
      decodes_to w owner repo token "README.md" text ->
      contains "not found" text = true \/ contains "inaccessible" text = true ->
      field snap "readme" = Some (PStr "No README.md found."))
  /\ (forall f text,
         In f dep_files ->
         decodes_to w owner repo token f text ->
         contains "not found" text = true \/ contains "inaccessible" text = true ->
         dependency snap f = None).
Proof.
  intros Hrun.
  assert (Habs : forall text,
             contains "not found" text = true \/ contains "inaccessible" text = true ->
             looks_absent text = true).
  { intros text H. unfold looks_absent. now apply orb_true_iff. }
  split.
  - intros text Hd Hs. apply fetch_result_decodes in Hd.
    rewrite (readme_field w owner repo token snap _ Hrun Hd), (Habs _ Hs). reflexivity.
  - intros f text Hin Hd Hs. apply fetch_result_decodes in Hd.
    rewrite (dependency_field w owner repo token snap f Hrun Hin).
    exact (dep_entry_absent w owner repo token f _ Hd (Habs _ Hs)).
Qed.

Lemma router_readme_decodes :
  decodes_to router_world "octocat" "Hello-World" None "README.md"
    ("# Router" ++ nl ++ "Returns a 404 page when the route is not found." ++ nl).
Proof.
  eexists _, _, _, _. repeat split; vm_compute; reflexivity.
Qed.

Lemma router_requirements_decodes :
  decodes_to router_world "octocat" "Hello-World" None "requirements.txt"
    ("flask==2.0" ++ nl ++ "# mirror inaccessible, pinned locally" ++ nl).
Proof.
  eexists _, _, _, _. repeat split; vm_compute; reflexivity.
Qed.

(** The run of C9 on a repository whose README.md says "... is not found."
    and whose requirements.txt has a comment with "inaccessible". *)
Lemma sentinel_text_is_taken_for_absent_witness :
  result_of (get_repo_structure router_world "octocat" "Hello-World" None)
  = Ret (router_snapshot, PNone)
  /\ field router_snapshot "readme" = Some (PStr "No README.md found.")
  /\ dependency router_snapshot "requirements.txt" = None.
Proof.
  assert (Hrun : result_of (get_repo_structure router_world "octocat" "Hello-World" None)
                 = Ret (router_snapshot, PNone)) by (vm_compute; reflexivity).
  destruct (sentinel_text_is_taken_for_absent
              router_world "octocat" "Hello-World" None router_snapshot Hrun)
    as [Hreadme Hdep].
  split; [exact Hrun | split].
  - apply (Hreadme _ router_readme_decodes). left. vm_compute. reflexivity.
  - apply (Hdep "requirements.txt" _ (or_introl eq_refl) router_requirements_decodes).
    right. vm_compute. reflexivity.
Defined.

(* ================================================================== *)
(** * The dependency manifests *)
(* ================================================================== *)

(** What a run that returns a snapshot has done with the manifests: it
    has requested each of the seven names once, in the listed order,
    after the metadata, the tree and README.md; what the mapping holds
    under a manifest name is decided by the answer to that manifest's
    request alone; an answer that is not 200 raises nothing and leaves
    the name out; the mapping is never empty, and when no manifest is
    found it is the single placeholder entry. *)
Lemma returned_snapshot_manifests (w : World) (owner repo : string)
    (token : option string) (snap : pyval) :
  result_of (get_repo_structure w owner repo token) = Ret (snap, PNone) ->
  dep_files = ["requirements.txt"; "package.json"; "Pipfile"; "pyproject.toml";
               "package-lock.json"; "Pipfile.lock"; "yarn.lock"]
  /\ (exists default_branch,
         requests_of (get_repo_structure w owner repo token)
         = metadata_request owner repo token
             :: tree_request w owner repo token default_branch
             :: content_request owner repo token "README.md"
             :: map (content_request owner repo token) dep_files)
  /\ (exists dependencies,
         field snap "dependencies" = Some (PDict dependencies)
         /\ 1 <= length dependencies
         /\ dependencies = or_placeholder (found_entries w owner repo token dep_files)
         /\ (Forall (fun f => dep_entry w owner repo token f = None) dep_files ->
             dependencies = [("status", PStr no_dependency_message)]))
  /\ (forall f,
         In f dep_files ->
         dependency snap f = dep_entry w owner repo token f)
  /\ (forall f r,
         In f dep_files ->
         requests_get w (file_url owner repo f) (auth_headers token) = Ret r ->
         status_code r <> 200%Z ->
         fetch_result w owner repo token f = Ret (not_found_message f)
         /\ dependency snap f = None).
Proof.
  intros Hrun.
  destruct (snapshot_fields w owner repo token snap Hrun)
    as (r & md & b & tr & fs & rc & _ & _ & _ & _ & _ & _ & _ & _ & Hsnap & Hlog).
  split; [reflexivity | split; [|split; [|split]]].
  - exists b. exact Hlog.
  - exists (or_placeholder (found_entries w owner repo token dep_files)).
    rewrite Hsnap. split; [reflexivity | split; [|split; [reflexivity|]]].
    + apply or_placeholder_length.
    + intros Hnone. apply found_nil in Hnone. now rewrite Hnone.
  - intros f Hin. now apply dependency_field.
  - intros f r' Hin Hget Hst.
    pose proof (fetch_result_not_200 w owner repo token f r' Hget Hst) as Hf.
    split; [exact Hf|].
    rewrite (dependency_field w owner repo token snap f Hrun Hin).
    apply (dep_entry_absent w owner repo token f _ Hf).
    unfold looks_absent. now rewrite not_found_message_absent.
Qed.

(** The Hello-World repository has package.json only. *)
Lemma returned_snapshot_manifests_hello :
  result_of (get_repo_structure hello_world "octocat" "Hello-World" None)
  = Ret (hello_snapshot, PNone)
  /\ map req_url (requests_of (get_repo_structure hello_world "octocat" "Hello-World" None))
     = ["https://api.github.com/repos/octocat/Hello-World";
        "https://api.github.com/repos/octocat/Hello-World/git/trees/master?recursive=1";
        "https://api.github.com/repos/octocat/Hello-World/contents/README.md";
        "https://api.github.com/repos/octocat/Hello-World/contents/requirements.txt";
        "https://api.github.com/repos/octocat/Hello-World/contents/package.json";
        "https://api.github.com/repos/octocat/Hello-World/contents/Pipfile";
        "https://api.github.com/repos/octocat/Hello-World/contents/pyproject.toml";
        "https://api.github.com/repos/octocat/Hello-World/contents/package-lock.json";
        "https://api.github.com/repos/octocat/Hello-World/contents/Pipfile.lock";
        "https://api.github.com/repos/octocat/Hello-World/contents/yarn.lock"]
  /\ dependency hello_snapshot "yarn.lock"
     = dep_entry hello_world "octocat" "Hello-World" None "yarn.lock".
Proof.
  assert (Hrun : result_of (get_repo_structure hello_world "octocat" "Hello-World" None)
                 = Ret (hello_snapshot, PNone)) by (vm_compute; reflexivity).
  destruct (returned_snapshot_manifests
              hello_world "octocat" "Hello-World" None hello_snapshot Hrun)
    as (_ & _ & _ & Hdep & _).
  split; [exact Hrun | split; [vm_compute; reflexivity|]].
  apply Hdep. simpl. tauto.
Defined.

Example no_manifest_placeholder :
  result_of (get_repo_structure metadata_only_world "octocat" "Hello-World" (Some "ghp_x"))
  = Ret (degraded_snapshot, PNone)
  /\ field degraded_snapshot "dependencies"
     = Some (PDict [("status",
                     PStr "No primary dependency file (e.g., requirements.txt, package.json) or lock file found.")]).
Proof. split; vm_compute; reflexivity. Qed.

(* ================================================================== *)
(** * The file tree *)
(* ================================================================== *)

Lemma py_get_object (items : list (string * pyval)) :
  py_get (PDict items) "default_branch" (PStr "main") = Ret (default_branch_of items).
Proof. reflexivity. Qed.

(** When the tree request is answered 200 with a list of entries that
    each carry a [path], the file structure is the newline-joined paths
    of the first 100 entries in the order of the answer (exactly 100 of
    them when there are 250 entries); when the tree request is not
    answered 200 the file structure is the join of no path, the empty
    string; and the [structure] field of a returned snapshot is the file
    structure of the answer to the tree request. *)
Lemma file_structure_of_paths (w : World) (owner repo : string)
    (token : option string) :
  (forall tree_response body entries all_paths,
      status_code tree_response = 200%Z ->
      json tree_response = Ret (PDict body) ->
      assoc "tree" body = Some (PList entries) ->
      Forall2 has_path entries all_paths ->
      file_structure_of tree_response = Ret (String.concat nl (firstn 100 all_paths))
      /\ (length entries = 250 -> length (firstn 100 all_paths) = 100))
  /\ (forall tree_response,
         status_code tree_response <> 200%Z ->
         file_structure_of tree_response = Ret (String.concat nl [])
         /\ String.concat nl [] = "")
  /\ (forall snap,
         result_of (get_repo_structure w owner repo token) = Ret (snap, PNone) ->
         exists r repo_data default_branch tree_response file_structure,
           requests_get w (api_url owner repo) (auth_headers token) = Ret r
           /\ json r = Ret repo_data
           /\ py_get repo_data "default_branch" (PStr "main") = Ret default_branch
           /\ requests_get w (tree_url w owner repo default_branch) (auth_headers token)
              = Ret tree_response
           /\ file_structure_of tree_response = Ret file_structure
           /\ field snap "structure" = Some (PStr file_structure)).
Proof.
  split; [|split].
  - intros tr body entries all_paths Hst Hjson Htree Hpaths. split.
    + apply (file_structure_of_success tr body entries); try assumption.
      now apply Forall2_firstn.
    + intros Hlen. apply Forall2_length in Hpaths.
      rewrite length_firstn. lia.
  - intros tr Hst. split; [now apply file_structure_of_failure | reflexivity].
  - intros snap Hrun.
    destruct (snapshot_fields w owner repo token snap Hrun)
      as (r & md & b & tr & fs & rc & Hmeta & _ & Hjson & Hb & Htree & Hfs & _ & _
          & -> & _).
    exists r, md, b, tr, fs. repeat (split; [assumption|]). reflexivity.
Qed.

Example file_list_of_250_entries :
  file_structure_of (numbered_tree 250)
  = Ret (String.concat nl (map (fun i => "f" ++ str_of_int (Z.of_nat i)) (seq 0 100))).
Proof. vm_compute. reflexivity. Qed.

(** The log of a run begins with the metadata and the tree requests as
    soon as the metadata is answered 200 with a JSON object. *)
Lemma tree_request_issued (w : World) (owner repo : string) (token : option string)
    (r : response) (items : list (string * pyval)) :
  requests_get w (api_url owner repo) (auth_headers token) = Ret r ->
  status_code r = 200%Z ->
  json r = Ret (PDict items) ->
  exists rest,
    requests_of (get_repo_structure w owner repo token)
    = metadata_request owner repo token
        :: tree_request w owner repo token (default_branch_of items) :: rest.
Proof.
  intros Hmeta Hst Hjson.
  unfold requests_of, get_repo_structure, bind, http_get, lift, ret. simpl app.
  rewrite Hmeta. apply Z.eqb_eq in Hst. rewrite Hst. cbn [negb].
  rewrite Hjson, py_get_object.
  destruct (requests_get w (tree_url w owner repo (default_branch_of items))
              (auth_headers token)) as [tr|e]; [|eexists; reflexivity].
  destruct (file_structure_of tr) as [fs|e]; [|eexists; reflexivity].
  rewrite fetch_file_content_run. simpl app.
  destruct (fetch_result w owner repo token "README.md") as [rc|e];
    [|eexists; reflexivity].
  match goal with
  | |- context [collect_dependencies w owner repo token dep_files [] ?l] =>
      destruct (collect_dependencies_log w owner repo token dep_files [] l)
        as [extra Hextra];
      destruct (collect_dependencies w owner repo token dep_files [] l) as [[d|e] log1]
  end; simpl in Hextra; subst log1; eexists; reflexivity.
Qed.

(** C7: when the metadata is answered 200 with a JSON object, the second
    request of the run is the tree request for the branch named by the
    object's [default_branch], and for the branch [main] exactly when the
    object has no such key; the [structure] field of the snapshot is
    computed from the answer to that request. *)
Theorem default_branch_names_the_tree (w : World) (owner repo : string)
    (token : option string) (r : response) (items : list (string * pyval)) :
  requests_get w (api_url owner repo) (auth_headers token) = Ret r ->
  status_code r = 200%Z ->
  json r = Ret (PDict items) ->
  (forall b,
      assoc "default_branch" items = Some b ->
      nth_error (requests_of (get_repo_structure w owner repo token)) 1
      = Some {| req_url := "https://api.github.com/repos/" ++ owner ++ "/" ++ repo
                           ++ "/git/trees/" ++ py_str w b ++ "?recursive=1";
                req_headers := auth_headers token |})
  /\ (assoc "default_branch" items = None ->
      nth_error (requests_of (get_repo_structure w owner repo token)) 1
      = Some {| req_url := "https://api.github.com/repos/" ++ owner ++ "/" ++ repo
                           ++ "/git/trees/" ++ "main" ++ "?recursive=1";
                req_headers := auth_headers token |})
  /\ (forall snap,
         result_of (get_repo_structure w owner repo token) = Ret (snap, PNone) ->
         exists tree_response file_structure,
           requests_get w (tree_url w owner repo (default_branch_of items))
             (auth_headers token) = Ret tree_response
           /\ file_structure_of tree_response = Ret file_structure
           /\ field snap "structure" = Some (PStr file_structure)).
Proof.
  intros Hmeta Hst Hjson.
  destruct (tree_request_issued w owner repo token r items Hmeta Hst Hjson)
    as [rest Hlog].
  split; [|split].
  - intros b Hb. rewrite Hlog. unfold default_branch_of. rewrite Hb. reflexivity.
  - intros Hb. rewrite Hlog. unfold default_branch_of. rewrite Hb. reflexivity.
  - intros snap Hrun.
    destruct (snapshot_fields w owner repo token snap Hrun)
      as (r' & md & b & tr & fs & rc & Hmeta' & _ & Hjson' & Hb & Htree & Hfs & _ & _
          & -> & _).
    rewrite Hmeta in Hmeta'. injection Hmeta' as <-.
    rewrite Hjson in Hjson'. injection Hjson' as <-.
    rewrite py_get_object in Hb. injection Hb as <-.
    exists tr, fs. repeat (split; [assumption|]). reflexivity.
Qed.

(** The run of C7 on the Hello-World repository, whose default branch is
    [master], and on a repository whose metadata names no branch. *)
Lemma default_branch_names_the_tree_witness :
  nth_error (requests_of (get_repo_structure hello_world "octocat" "Hello-World" None)) 1
  = Some {| req_url := "https://api.github.com/repos/octocat/Hello-World/git/trees/master?recursive=1";
            req_headers := [] |}
  /\ nth_error (requests_of (get_repo_structure metadata_only_world
                               "octocat" "Hello-World" None)) 1
     = Some {| req_url := "https://api.github.com/repos/octocat/Hello-World/git/trees/main?recursive=1";
               req_headers := [] |}.
Proof.
  split.
  - refine (proj1 (default_branch_names_the_tree hello_world "octocat" "Hello-World" None
                     (ok hello_metadata)
                     [("name", PStr "Hello-World"); ("stargazers_count", PInt 42);
                      ("default_branch", PStr "master")]
                     eq_refl eq_refl eq_refl) (PStr "master") eq_refl).
  - refine (proj1 (proj2 (default_branch_names_the_tree metadata_only_world
                            "octocat" "Hello-World" None
                            (ok (PDict [("name", PStr "Hello-World")]))
                            [("name", PStr "Hello-World")]
                            eq_refl eq_refl eq_refl)) eq_refl).
Defined.

(* ================================================================== *)
(** * The pair [get_repo_structure] returns *)
(* ================================================================== *)

Lemma py_get_ret (v : pyval) (k : string) (default x : pyval) :
  py_get v k default = Ret x ->
  exists items,
    v = PDict items
    /\ x = match assoc k items with Some y => y | None => default end.
Proof.
  destruct v; try discriminate. simpl. intros H. injection H as <-. eauto.
Qed.

Section Pair.

Variable w : World.
Variables owner repo : string.
Variable token : option string.

Local Abbreviation run := (result_of (get_repo_structure w owner repo token)).
Local Abbreviation metadata_answer :=
  (requests_get w (api_url owner repo) (auth_headers token)).

Lemma error_return (r : response) (items : list (string * pyval)) :
  metadata_answer = Ret r ->
  status_code r <> 200%Z ->
  json r = Ret (PDict items) ->
  run = Ret (PNone,
             PStr (error_text w r (match assoc "message" items with
                                   | Some m => m
                                   | None => PStr "Unknown error"
                                   end))).
Proof.
  intros Hmeta Hst Hjson. apply get_repo_structure_result. eexists.
  eapply returns_error; eauto.
Qed.

Lemma returned_pair (snap err : pyval) :
  run = Ret (snap, err) ->
  (exists r items,
      metadata_answer = Ret r /\ status_code r <> 200%Z /\ json r = Ret (PDict items)
      /\ snap = PNone
      /\ err = PStr (error_text w r (match assoc "message" items with
                                     | Some m => m
                                     | None => PStr "Unknown error"
                                     end)))
  \/ (exists r metadata structure readme dependencies,
         metadata_answer = Ret r /\ status_code r = 200%Z
         /\ snap = snapshot_of metadata structure readme dependencies
         /\ err = PNone).
Proof.
  intros H. apply get_repo_structure_result in H as [log H].
  inversion H as [r body message Hmeta Hst Hjson Hmsg
                 | r md b tr fs rc Hmeta Hst]; subst.
  - left. apply py_get_ret in Hmsg as (items & -> & ->).
    exists r, items. auto.
  - right. exists r. do 4 eexists. repeat split; eauto.
Qed.

Lemma snapshot_return (r : response) (items : list (string * pyval))
    (tree_response : response) (file_structure : string) :
  metadata_answer = Ret r ->
  status_code r = 200%Z ->
  json r = Ret (PDict items) ->
  requests_get w (tree_url w owner repo (default_branch_of items)) (auth_headers token)
    = Ret tree_response ->
  file_structure_of tree_response = Ret file_structure ->
  Forall (fun f => exists rr,
              requests_get w (file_url owner repo f) (auth_headers token) = Ret rr
              /\ (status_code rr <> 200%Z \/ object_body rr))
         ("README.md" :: dep_files) ->
  exists readme_content,
    fetch_result w owner repo token "README.md" = Ret readme_content
    /\ run = Ret (snapshot_of (PDict items) file_structure
                    (if looks_absent readme_content then no_readme_message
                     else readme_content)
                    (or_placeholder (found_entries w owner repo token dep_files)),
                  PNone).
Proof.
  intros Hmeta Hst Hjson Htree Hfs Hall.
  assert (Hfetch : Forall (fun f => exists c, fetch_result w owner repo token f = Ret c)
                          ("README.md" :: dep_files)).
  { eapply Forall_impl; [|exact Hall]. intros f (rr & Hget & Hcase).
    exact (fetch_result_total w owner repo token f rr Hget Hcase). }
  inversion Hfetch as [|? ? [rc Hrc] Hdeps]; subst.
  exists rc. split; [exact Hrc|].
  apply get_repo_structure_result. eexists.
  rewrite <- collected_dep_files.
  eapply (returns_snapshot w owner repo token r (PDict items) (default_branch_of items)
            tree_response file_structure rc); eauto.
  eapply Forall_impl; [|exact Hdeps]. intros f [c ->]. reflexivity.
Qed.

End Pair.

(** C1, as the code has it: the error pair is returned exactly when the
    metadata request is answered with a status other than 200 and a JSON
    object, and its text carries that status code and the object's
    [message] (or "Unknown error" when the object has none); among the
    runs that return, the error is returned if and only if the metadata
    status is not 200; a status other than 200 whose body is not a JSON
    object makes the call raise; in a returned snapshot a tree request
    that is not answered 200 leaves the structure empty and a README.md
    request that is not answered 200 leaves the placeholder; and when the
    metadata is answered 200 with an object while the tree and every
    content request are answered with another status, the call returns
    the snapshot with the empty structure and the two placeholders. *)
Theorem error_iff_metadata_fails (w : World) (owner repo : string)
    (token : option string) :
  (forall msg,
      result_of (get_repo_structure w owner repo token) = Ret (PNone, PStr msg)
      <-> exists r items,
            requests_get w (api_url owner repo) (auth_headers token) = Ret r
            /\ status_code r <> 200%Z
            /\ json r = Ret (PDict items)
            /\ msg = "Error: Could not fetch repo. Status Code: "
                     ++ str_of_int (status_code r) ++ ". Message: "
                     ++ py_str w (match assoc "message" items with
                                  | Some m => m
                                  | None => PStr "Unknown error"
                                  end))
  /\ (forall snap err,
         result_of (get_repo_structure w owner repo token) = Ret (snap, err) ->
         (err <> PNone
          <-> exists r,
                requests_get w (api_url owner repo) (auth_headers token) = Ret r
                /\ status_code r <> 200%Z))
  /\ (forall r,
         requests_get w (api_url owner repo) (auth_headers token) = Ret r ->
         status_code r <> 200%Z ->
         (forall items, json r <> Ret (PDict items)) ->
         exists e, result_of (get_repo_structure w owner repo token) = Raise e)
  /\ (forall snap,
         result_of (get_repo_structure w owner repo token) = Ret (snap, PNone) ->
         (forall r items tree_response,
             requests_get w (api_url owner repo) (auth_headers token) = Ret r ->
             json r = Ret (PDict items) ->
             requests_get w (tree_url w owner repo (default_branch_of items))
               (auth_headers token) = Ret tree_response ->
             status_code tree_response <> 200%Z ->
             field snap "structure" = Some (PStr ""))
         /\ (forall rr,
                requests_get w (file_url owner repo "README.md") (auth_headers token)
                = Ret rr ->
                status_code rr <> 200%Z ->
                field snap "readme" = Some (PStr "No README.md found.")))
  /\ (forall r items tree_response,
         requests_get w (api_url owner repo) (auth_headers token) = Ret r ->
         status_code r = 200%Z ->
         json r = Ret (PDict items) ->
         requests_get w (tree_url w owner repo (default_branch_of items))
           (auth_headers token) = Ret tree_response ->
         status_code tree_response <> 200%Z ->
         Forall (fun f => exists rr,
                     requests_get w (file_url owner repo f) (auth_headers token) = Ret rr
                     /\ status_code rr <> 200%Z)
                ("README.md" :: dep_files) ->
         result_of (get_repo_structure w owner repo token)
         = Ret (snapshot_of (PDict items) "" "No README.md found."
                  [("status", PStr no_dependency_message)],
                PNone)).
Proof.
  split; [|split; [|split; [|split]]].
  - intros msg. split.
    + intros H. apply returned_pair in H
        as [(r & items & Hmeta & Hst & Hjson & _ & Herr)
           | (r & md & fs & rd & deps & _ & _ & Hsnap & _)]; [|discriminate Hsnap].
      injection Herr as ->. exists r, items. auto.
    + intros (r & items & Hmeta & Hst & Hjson & ->).
      exact (error_return w owner repo token r items Hmeta Hst Hjson).
  - intros snap err H. apply returned_pair in H
      as [(r & items & Hmeta & Hst & Hjson & _ & ->)
         | (r & md & fs & rd & deps & Hmeta & Hst & _ & ->)].
    + split; [eauto | discriminate].
    + split; [congruence|]. intros (r' & Hmeta' & Hst').
      rewrite Hmeta in Hmeta'. injection Hmeta' as <-. contradiction.
  - intros r Hmeta Hst Hbody.
    destruct (result_of (get_repo_structure w owner repo token)) as [[snap err]|e] eqn:E;
      [|eauto].
    exfalso. apply returned_pair in E
      as [(r' & items & Hmeta' & _ & Hjson & _)
         | (r' & md & fs & rd & deps & Hmeta' & Hst' & _)];
      rewrite Hmeta in Hmeta'; injection Hmeta' as <-.
    + exact (Hbody items Hjson).
    + contradiction.
  - intros snap Hrun. split.
    + intros r items tr Hmeta Hjson Htree Hst.
      destruct (snapshot_fields w owner repo token snap Hrun)
        as (r' & md & b & tr' & fs & rc & Hmeta' & _ & Hjson' & Hb & Htree' & Hfs & _ & _
            & -> & _).
      rewrite Hmeta in Hmeta'. injection Hmeta' as <-.
      rewrite Hjson in Hjson'. injection Hjson' as <-.
      rewrite py_get_object in Hb. injection Hb as <-.
      rewrite Htree in Htree'. injection Htree' as <-.
      rewrite (file_structure_of_failure tr Hst) in Hfs. injection Hfs as <-.
      reflexivity.
    + intros rr Hget Hst.
      pose proof (fetch_result_not_200 w owner repo token _ rr Hget Hst) as Hf.
      rewrite (readme_field w owner repo token snap _ Hrun Hf).
      unfold looks_absent. now rewrite not_found_message_absent.
  - intros r items tr Hmeta Hst Hjson Htree Htr Hall.
    assert (Hfetch : forall f, In f ("README.md" :: dep_files) ->
                               fetch_result w owner repo token f = Ret (not_found_message f)).
    { rewrite Forall_forall in Hall. intros f Hin.
      destruct (Hall f Hin) as (rr & Hget & Hrr).
      exact (fetch_result_not_200 w owner repo token f rr Hget Hrr). }
    destruct (snapshot_return w owner repo token r items tr ""
                Hmeta Hst Hjson Htree (file_structure_of_failure tr Htr))
      as (rc & Hrc & Hrun).
    { eapply Forall_impl; [|exact Hall]. intros f (rr & Hget & Hrr). eauto. }
    rewrite Hrun. rewrite (Hfetch "README.md" (or_introl eq_refl)) in Hrc.
    injection Hrc as <-.
    assert (Hnone : found_entries w owner repo token dep_files = []).
    { apply found_nil. apply Forall_forall. intros f Hin.
      apply (dep_entry_absent w owner repo token f (not_found_message f)).
      - apply Hfetch. now right.
      - unfold looks_absent. now rewrite not_found_message_absent. }
    rewrite Hnone. unfold looks_absent. rewrite not_found_message_absent. reflexivity.
Qed.

(** C1 as stated fails: the metadata request is answered 502 with an HTML
    page; the status is not 200, and the call raises the decoding error
    of [response.json()] instead of returning the error pair. *)
Lemma html_error_page_raises :
  requests_get bad_gateway_world (api_url "octocat" "Hello-World") (auth_headers None)
  = Ret bad_gateway_response
  /\ status_code bad_gateway_response = 502%Z
  /\ result_of (get_repo_structure bad_gateway_world "octocat" "Hello-World" None)
     = Raise (Exn "JSONDecodeError" "Expecting value: line 1 column 1 (char 0)").
Proof. repeat split; vm_compute; reflexivity. Qed.

Example repository_not_found :
  result_of (get_repo_structure (world_of [] "") "octocat" "Missing" None)
  = Ret (PNone,
         PStr "Error: Could not fetch repo. Status Code: 404. Message: Not Found").
Proof. vm_compute. reflexivity. Qed.


Example returned_pairs :
  result_of (get_repo_structure hello_world "octocat" "Hello-World" None)
  = Ret (hello_snapshot, PNone)
  /\ result_of (get_repo_structure hello_world "octocat" "Missing" None)
     = Ret (PNone,
            PStr "Error: Could not fetch repo. Status Code: 404. Message: Not Found").
Proof. split; vm_compute; reflexivity. Qed.

(* ================================================================== *)
(** * [analyze_with_gemini] *)
(* ================================================================== *)

Lemma py_getitem_field (v : pyval) (k : string) (x : pyval) :
  field v k = Some x -> py_getitem v k = Ret x.
Proof.
  destruct v; try discriminate. simpl. now intros ->.
Qed.

Lemma build_prompt_of_snapshot (w : World) (repo_data metadata structure readme : pyval)
    (dependencies : list (string * pyval)) :
  field repo_data "metadata" = Some metadata ->
  field repo_data "structure" = Some structure ->
  field repo_data "readme" = Some readme ->
  field repo_data "dependencies" = Some (PDict dependencies) ->
  build_prompt w repo_data
  = Ret (prompt_before_metadata ++ py_str w metadata
         ++ prompt_before_structure ++ py_str w structure
         ++ prompt_before_readme ++ py_str w readme
         ++ prompt_before_dependencies ++ dep_summary_of w dependencies
         ++ prompt_after_dependencies).
Proof.
  intros Hm Hs Hr Hd. unfold build_prompt.
  rewrite (py_getitem_field _ _ _ Hd). cbn [obind py_items].
  rewrite (py_getitem_field _ _ _ Hm), (py_getitem_field _ _ _ Hs),
    (py_getitem_field _ _ _ Hr).
  reflexivity.
Qed.

(** C8: for a snapshot (a dictionary with the four keys, whose
    dependencies are a dictionary), the call never raises: it returns
    the text of the model's answer unchanged, or "Error configuring
    Gemini API or loading model: ..." when configuring or constructing
    the model raises, or "Error generating content: ..." when the
    generation or the reading of its text raises; the prompt sent to the
    model holds the metadata, the file structure, the README and, for the
    dependency mapping, the blocks "--- name ---" newline content,
    separated by blank lines. *)
Theorem analyze_with_gemini_spec (w : World) (repo_data : pyval)
    (api_key model_name : string)
    (metadata structure readme : pyval) (dependencies : list (string * pyval)) :
  field repo_data "metadata" = Some metadata ->
  field repo_data "structure" = Some structure ->
  field repo_data "readme" = Some readme ->
  field repo_data "dependencies" = Some (PDict dependencies) ->
  exists prompt,
    build_prompt w repo_data = Ret prompt
    /\ prompt
       = prompt_before_metadata ++ py_str w metadata
         ++ prompt_before_structure ++ py_str w structure
         ++ prompt_before_readme ++ py_str w readme
         ++ prompt_before_dependencies
         ++ String.concat (nl ++ nl)
              (map (fun item => "--- " ++ fst item ++ " ---" ++ nl ++ py_str w (snd item))
                   dependencies)
         ++ prompt_after_dependencies
    /\ (exists answer, analyze_with_gemini w repo_data api_key model_name = Ret answer)
    /\ (forall e,
           genai_configure w api_key = Raise e ->
           analyze_with_gemini w repo_data api_key model_name
           = Ret ("Error configuring Gemini API or loading model: " ++ exn_str e))
    /\ (forall e,
           genai_configure w api_key = Ret tt ->
           genai_GenerativeModel w model_name = Raise e ->
           analyze_with_gemini w repo_data api_key model_name
           = Ret ("Error configuring Gemini API or loading model: " ++ exn_str e))
    /\ (genai_configure w api_key = Ret tt ->
        genai_GenerativeModel w model_name = Ret tt ->
        (forall e,
            generate_content w api_key model_name prompt = Raise e ->
            analyze_with_gemini w repo_data api_key model_name
            = Ret ("Error generating content: " ++ exn_str e))
        /\ (forall r e,
               generate_content w api_key model_name prompt = Ret r ->
               text r = Raise e ->
               analyze_with_gemini w repo_data api_key model_name
               = Ret ("Error generating content: " ++ exn_str e))
        /\ (forall r answer,
               generate_content w api_key model_name prompt = Ret r ->
               text r = Ret answer ->
               analyze_with_gemini w repo_data api_key model_name = Ret answer)).
Proof.
  intros Hm Hs Hr Hd.
  pose proof (build_prompt_of_snapshot w repo_data _ _ _ _ Hm Hs Hr Hd) as Hp.
  eexists. split; [exact Hp | split; [reflexivity|]].
  unfold analyze_with_gemini. rewrite Hp. cbn [obind].
  split; [|split; [|split; [|intros Hc Hg; split; [|split]]]].
  - destruct (genai_configure w api_key) as [[]|e]; cbn [obind]; [|eauto].
    destruct (genai_GenerativeModel w model_name) as [[]|e]; [|eauto].
    destruct (generate_content w api_key model_name _) as [r|e]; cbn [obind otry];
      [|eauto].
    destruct (text r); cbn [otry]; eauto.
  - intros e ->. reflexivity.
  - intros e -> ->. reflexivity.
  - intros e He. rewrite Hc, Hg. cbn [obind]. rewrite He. reflexivity.
  - intros r e He Ht. rewrite Hc, Hg. cbn [obind]. rewrite He. cbn [obind otry].
    rewrite Ht. reflexivity.
  - intros r answer He Ht. rewrite Hc, Hg. cbn [obind]. rewrite He. cbn [obind otry].
    rewrite Ht. reflexivity.
Qed.

(** The run of C8 on the snapshot of the Hello-World repository, with a
    model that answers "### SCORE". *)
Lemma analyze_with_gemini_spec_witness :
  field hello_snapshot "dependencies"
  = Some (PDict [("package.json",
                  PStr ("{" ++ dquote ++ "name" ++ dquote ++ ": " ++ dquote
                        ++ "hello" ++ dquote ++ "}" ++ nl))])
  /\ exists prompt,
       build_prompt hello_world hello_snapshot = Ret prompt
       /\ analyze_with_gemini hello_world hello_snapshot "key" "models/gemini-2.5-flash"
          = Ret "### SCORE".
Proof.
  split; [reflexivity|].
  destruct (analyze_with_gemini_spec hello_world hello_snapshot
              "key" "models/gemini-2.5-flash" _ _ _ _
              eq_refl eq_refl eq_refl eq_refl)
    as (prompt & Hp & _ & _ & _ & _ & Hgen).
  exists prompt. split; [exact Hp|].
  destruct (Hgen eq_refl eq_refl) as (_ & _ & Hok).
  exact (Hok {| text := Ret "### SCORE" |} "### SCORE" eq_refl eq_refl).
Defined.

(** A model whose construction fails and a generation that fails. *)
Example analyze_with_gemini_failures :
  analyze_with_gemini
    {| requests_get := serve [];
       b64decode := reference_b64decode;
       decode_utf8 := reference_decode_utf8;
       py_repr := fun _ => "<repr>";
       genai_configure := fun _ => Ret tt;
       genai_GenerativeModel := fun _ => Raise (Exn "NotFound" "unknown model");
       generate_content := fun _ _ _ => Ret {| text := Ret "" |} |}
    hello_snapshot "key" "models/none"
  = Ret "Error configuring Gemini API or loading model: unknown model"
  /\ analyze_with_gemini
       {| requests_get := serve [];
          b64decode := reference_b64decode;
          decode_utf8 := reference_decode_utf8;
          py_repr := fun _ => "<repr>";
          genai_configure := fun _ => Ret tt;
          genai_GenerativeModel := fun _ => Ret tt;
          generate_content := fun _ _ _ => Raise (Exn "ResourceExhausted" "429 quota") |}
       hello_snapshot "key" "models/gemini-2.5-flash"
     = Ret "Error generating content: 429 quota".
Proof. split; vm_compute; reflexivity. Qed.

(* ================================================================== *)
(** * Runs of the reference decoders *)
(* ================================================================== *)

Example reference_b64decode_text :
  (raw <-? reference_b64decode "SGVsbG8gV29ybGQhCg==" ;; reference_decode_utf8 raw)
  = Ret ("Hello World!" ++ nl).
Proof. vm_compute. reflexivity. Qed.

Example reference_b64decode_skips_line_breaks :
  reference_b64decode ("SGVsbG8g" ++ nl ++ "V29ybGQhCg==" ++ nl)
  = reference_b64decode "SGVsbG8gV29ybGQhCg==".
Proof. vm_compute. reflexivity. Qed.

Example reference_b64decode_padding :
  reference_b64decode "QQ" = Raise (Exn "binascii.Error" "Incorrect padding")
  /\ reference_b64decode "QQ==" = Ret [x41].
Proof. split; vm_compute; reflexivity. Qed.

(* ================================================================== *)
(** * More on [parse_github_url] and the absence test *)
(* ================================================================== *)

Lemma split_pieces_no_sep (c : ascii) (s : string) :
  Forall (fun piece => occurs c piece = false) (split c s).
Proof.
  induction s as [|a s IH]; simpl; [repeat constructor|].
  destruct (Ascii.eqb a c) eqn:Ha; [constructor; [reflexivity | exact IH]|].
  destruct (split c s) as [|p ps]; [repeat constructor; simpl; now rewrite Ha|].
  inversion IH as [|? ? Hp Hps]; subst.
  constructor; [simpl; now rewrite Ha, Hp | exact Hps].
Qed.

Lemma concat_split (c : ascii) (s : string) :
  String.concat (String c "") (split c s) = s.
Proof.
  induction s as [|a s IH]; [reflexivity|].
  simpl split. pose proof (split_not_nil c s) as Hne.
  destruct (Ascii.eqb_spec a c) as [->|Hac].
  - destruct (split c s) as [|p ps] eqn:E; [contradiction|].
    change (String.concat (String c "") ("" :: p :: ps))
      with ("" ++ String c "" ++ String.concat (String c "") (p :: ps)).
    now rewrite IH.
  - destruct (split c s) as [|p ps] eqn:E; [contradiction|].
    destruct ps as [|q qs]; simpl in *; now rewrite <- IH.
Qed.

Lemma concat_last_two (sep : string) (l : list string) (a b : string) :
  exists base,
    String.concat sep (l ++ [a; b]) = base ++ a ++ sep ++ b
    /\ (base = "" \/ exists pre, base = pre ++ sep).
Proof.
  induction l as [|x l (base & Heq & Hbase)].
  - exists "". split; [reflexivity | now left].
  - exists (x ++ sep ++ base). split.
    + change ((x :: l) ++ [a; b])%list with (x :: (l ++ [a; b]))%list.
      destruct (l ++ [a; b])%list as [|y ys] eqn:E.
      * destruct l; discriminate E.
      * change (String.concat sep (x :: y :: ys))
          with (x ++ sep ++ String.concat sep (y :: ys)).
        rewrite Heq. now rewrite !append_assoc.
    + right. destruct Hbase as [-> | [pre ->]].
      * exists x. now rewrite append_nil_r.
      * exists (x ++ sep ++ pre). now rewrite !append_assoc.
Qed.

Lemma last_two_pieces (l : list string) :
  2 <= length l ->
  exists l', l = (l' ++ [index_from_end l 2; index_from_end l 1])%list.
Proof.
  intros Hlen.
  destruct (exists_last (l := l)) as (l1 & b & ->); [destruct l; [simpl in Hlen; lia | discriminate]|].
  rewrite length_app in Hlen. simpl in Hlen.
  destruct (exists_last (l := l1)) as (l2 & a & ->);
    [destruct l1; [simpl in Hlen; lia | discriminate]|].
  exists l2. rewrite <- app_assoc. simpl app.
  destruct (index_from_end_two l2 a b) as [-> ->]. reflexivity.
Qed.

Lemma rstrip_decompose (c : ascii) (s : string) :
  exists n, s = rstrip c s ++ replicate n c.
Proof.
  induction s as [|a s [n IH]]; [now exists 0|].
  simpl rstrip. destruct (rstrip c s) as [|b kept] eqn:E.
  - simpl in IH. destruct (Ascii.eqb_spec a c) as [->|Hac].
    + exists (S n). simpl. now rewrite <- IH.
    + exists n. simpl. now rewrite <- IH.
  - exists n. simpl. simpl in IH. now rewrite <- IH.
Qed.

(** X1.  Trailing slashes never change what [parse_github_url] returns. *)
Theorem parse_github_url_ignores_trailing_slashes (url : string) (n : nat) :
  parse_github_url (url ++ replicate n "/") = parse_github_url url.
Proof.
  unfold parse_github_url. now rewrite rstrip_app, rstrip_replicate.
Qed.

(** X2.  A successful parse reads off the last two slash-separated pieces:
    the URL is [base ++ owner ++ "/" ++ repo] followed by slashes only,
    where [base] is empty or ends with a slash, and neither name holds a
    slash. *)
Theorem parse_github_url_inverse (url owner repo : string) :
  parse_github_url url = (Some owner, Some repo) ->
  occurs "/" owner = false
  /\ occurs "/" repo = false
  /\ exists base n,
       url = base ++ owner ++ "/" ++ repo ++ replicate n "/"
       /\ (base = "" \/ exists pre, base = pre ++ "/").
Proof.
  intros H. unfold parse_github_url in H.
  destruct (length (split "/" (rstrip "/" url)) <? 2)%nat eqn:Hlen; [discriminate|].
  apply Nat.ltb_ge in Hlen. injection H as Ho Hr.
  destruct (last_two_pieces _ Hlen) as [l Hl]. rewrite Ho, Hr in Hl.
  pose proof (split_pieces_no_sep "/" (rstrip "/" url)) as Hpieces.
  rewrite Hl in Hpieces. apply Forall_app in Hpieces as [_ Hlast].
  pose proof (Forall_inv Hlast) as Howner.
  pose proof (Forall_inv (Forall_inv_tail Hlast)) as Hrepo.
  cbv beta in Howner, Hrepo.
  split; [exact Howner | split; [exact Hrepo|]].
  destruct (concat_last_two "/" l owner repo) as (base & Heq & Hbase).
  rewrite <- Hl, concat_split in Heq.
  destruct (rstrip_decompose "/" url) as [n Hn].
  exists base, n. split; [|exact Hbase].
  rewrite Hn at 1. rewrite Heq. now rewrite !append_assoc.
Qed.

Lemma parse_github_url_inverse_witness :
  parse_github_url "https://github.com/octocat/Hello-World//"
  = (Some "octocat", Some "Hello-World")
  /\ occurs "/" "octocat" = false.
Proof.
  split; [reflexivity|].
  exact (proj1 (parse_github_url_inverse "https://github.com/octocat/Hello-World//"
                  "octocat" "Hello-World" eq_refl)).
Defined.

Lemma prefix_spec (n s : string) : prefix n s = true <-> exists b, s = n ++ b.
Proof.
  revert s. induction n as [|x n IH]; intros s.
  - split; [intros _; now exists s | now destruct s].
  - destruct s as [|y s]; [split; [discriminate | intros [b Hb]; discriminate]|].
    change (prefix (String x n) (String y s))
      with (if ascii_dec x y then prefix n s else false).
    destruct (ascii_dec x y) as [->|Hxy].
    + split.
      * intros H. apply IH in H as [b ->]. now exists b.
      * intros [b Hb]. injection Hb as ->. apply IH. now exists b.
    + split; [discriminate|]. intros [b Hb]. injection Hb as Hx _. congruence.
Qed.

Lemma contains_spec (n s : string) :
  contains n s = true <-> exists a b, s = a ++ n ++ b.
Proof.
  split.
  - induction s as [|x s IH]; intros H.
    + change (prefix n "" = true) in H.
      apply prefix_spec in H as [b Hb]. now exists "", b.
    + change (prefix n (String x s) || contains n s = true) in H.
      apply orb_true_iff in H as [H|H].
      * apply prefix_spec in H as [b Hb]. now exists "", b.
      * destruct (IH H) as (a & b & ->). now exists (String x a), b.
  - intros (a & b & ->). apply contains_app.
Qed.

(** X3.  The absence test is the substring test, and a content that holds
    neither sentinel reaches the snapshot unchanged, whatever its length:
    as the [readme] field, or under the manifest's name. *)
Theorem content_without_sentinel_is_kept (w : World) (owner repo : string)
    (token : option string) :
  (forall content,
      looks_absent content = true
      <-> exists a b,
            content = a ++ "not found" ++ b \/ content = a ++ "inaccessible" ++ b)
  /\ (forall snap content,
         result_of (get_repo_structure w owner repo token) = Ret (snap, PNone) ->
         fetch_result w owner repo token "README.md" = Ret content ->
         looks_absent content = false ->
         field snap "readme" = Some (PStr content))
  /\ (forall snap f content,
         result_of (get_repo_structure w owner repo token) = Ret (snap, PNone) ->
         In f dep_files ->
         fetch_result w owner repo token f = Ret content ->
         looks_absent content = false ->
         dependency snap f = Some (PStr content)).
Proof.
  split; [|split].
  - intros content. unfold looks_absent. rewrite orb_true_iff, !contains_spec. split.
    + intros [(a & b & H) | (a & b & H)]; exists a, b; auto.
    + intros (a & b & [H | H]); [left | right]; eauto.
  - intros snap content Hrun Hc Ha.
    rewrite (readme_field w owner repo token snap _ Hrun Hc), Ha. reflexivity.
  - intros snap f content Hrun Hin Hc Ha.
    rewrite (dependency_field w owner repo token snap f Hrun Hin).
    exact (dep_entry_present w owner repo token f _ Hc Ha).
Qed.

(* ================================================================== *)
(** * The requests of a run *)
(* ================================================================== *)

Section Requests.

Variable w : World.
Variables owner repo : string.
Variable token : option string.

Lemma collect_dependencies_prefix (files : list string) :
  forall acc log, exists k,
    snd (collect_dependencies w owner repo token files acc log)
    = (log ++ firstn k (map (content_request owner repo token) files))%list.
Proof.
  induction files as [|f rest IH]; intros acc log.
  - exists 0. simpl. now rewrite app_nil_r.
  - rewrite collect_dependencies_step.
    destruct (fetch_result w owner repo token f).
    + destruct (IH (add_entry w owner repo token acc f)
                   (log ++ [content_request owner repo token f])%list) as [k ->].
      exists (S k). rewrite <- app_assoc. reflexivity.
    + exists 1. reflexivity.
Qed.

(** Whatever happens, the log is a non-empty initial part of the ten
    requests of a complete run. *)
Lemma requests_prefix :
  exists default_branch n,
    1 <= n
    /\ requests_of (get_repo_structure w owner repo token)
       = firstn n (all_requests w owner repo token default_branch).
Proof.
  unfold requests_of, get_repo_structure, bind, http_get, lift, ret. simpl app.
  destruct (requests_get w (api_url owner repo) (auth_headers token)) as [r|e];
    [|exists PNone, 1; split; [lia | reflexivity]].
  destruct (status_code r =? 200)%Z; cbn [negb].
  - destruct (json r) as [repo_data|e];
      [|exists PNone, 1; split; [lia | reflexivity]].
    destruct (py_get repo_data "default_branch" (PStr "main")) as [b|e];
      [|exists PNone, 1; split; [lia | reflexivity]].
    destruct (requests_get w (tree_url w owner repo b) (auth_headers token)) as [tr|e];
      [|exists b, 2; split; [lia | reflexivity]].
    destruct (file_structure_of tr) as [fs|e];
      [|exists b, 2; split; [lia | reflexivity]].
    rewrite fetch_file_content_run. simpl app.
    destruct (fetch_result w owner repo token "README.md") as [rc|e];
      [|exists b, 3; split; [lia | reflexivity]].
    match goal with
    | |- context [collect_dependencies w owner repo token dep_files [] ?l] =>
        destruct (collect_dependencies_prefix dep_files [] l) as [k Hk];
        destruct (collect_dependencies w owner repo token dep_files [] l) as [[d|e] log1]
    end; simpl in Hk; subst log1; exists b, (3 + k); (split; [lia | reflexivity]).
  - destruct (json r) as [body|e];
      [|exists PNone, 1; split; [lia | reflexivity]].
    destruct (py_get body "message" (PStr "Unknown error"));
      exists PNone, 1; (split; [lia | reflexivity]).
Qed.

Lemma api_url_prefix (rest : string) :
  starts_with (api_url owner repo) (api_url owner repo ++ rest) = true.
Proof. apply prefix_app. Qed.

Lemma all_requests_shape (default_branch : pyval) :
  Forall (fun rq => req_headers rq = auth_headers token
                    /\ starts_with (api_url owner repo) (req_url rq) = true)
         (all_requests w owner repo token default_branch).
Proof.
  unfold all_requests. constructor; [|constructor].
  - split; [reflexivity|]. simpl req_url.
    rewrite <- (append_nil_r (api_url owner repo)) at 2. apply api_url_prefix.
  - split; [reflexivity|]. simpl req_url. unfold tree_url.
    replace ("https://api.github.com/repos/" ++ owner ++ "/" ++ repo ++ "/git/trees/"
             ++ py_str w default_branch ++ "?recursive=1")
      with (api_url owner repo
            ++ "/git/trees/" ++ py_str w default_branch ++ "?recursive=1")
      by (unfold api_url; now rewrite !append_assoc).
    apply api_url_prefix.
  - apply Forall_forall. intros rq Hin. apply in_map_iff in Hin as (f & <- & _).
    split; [reflexivity|]. simpl req_url. unfold file_url.
    replace ("https://api.github.com/repos/" ++ owner ++ "/" ++ repo ++ "/contents/" ++ f)
      with (api_url owner repo ++ "/contents/" ++ f)
      by (unfold api_url; now rewrite !append_assoc).
    apply api_url_prefix.
Qed.

End Requests.

Lemma Forall_firstn_of {A : Type} (P : A -> Prop) (n : nat) (l : list A) :
  Forall P l -> Forall P (firstn n l).
Proof.
  revert l. induction n as [|n IH]; intros l H; [constructor|].
  destruct H; simpl; constructor; auto.
Qed.

(** X4.  Every run, returning or raising, issues between one and ten requests;
    they are an initial part of the fixed sequence metadata, tree,
    README.md and the seven manifests; each goes to a URL under the
    repository's API address and carries the same headers. *)
Theorem requests_stay_within_the_repository (w : World) (owner repo : string)
    (token : option string) :
  (exists default_branch n,
      requests_of (get_repo_structure w owner repo token)
      = firstn n (metadata_request owner repo token
                    :: tree_request w owner repo token default_branch
                    :: map (content_request owner repo token)
                         ("README.md" :: dep_files)))
  /\ 1 <= length (requests_of (get_repo_structure w owner repo token)) <= 10
  /\ Forall (fun rq =>
               req_headers rq = auth_headers token
               /\ starts_with ("https://api.github.com/repos/" ++ owner ++ "/" ++ repo)
                              (req_url rq) = true)
            (requests_of (get_repo_structure w owner repo token)).
Proof.
  destruct (requests_prefix w owner repo token) as (b & n & Hn & Hlog).
  split; [now exists b, n | split].
  - rewrite Hlog, length_firstn. simpl length. lia.
  - rewrite Hlog. apply Forall_firstn_of. apply all_requests_shape.
Qed.

(** X5.  The token reaches the provider only when one is given: without a
    token (or with the empty one) no request of a run carries a header,
    and with the token [t] every request carries exactly
    [Authorization: token t]. *)
Theorem token_is_sent_only_when_given (w : World) (owner repo : string) :
  (forall token,
      truthy token = false ->
      Forall (fun rq => req_headers rq = [])
             (requests_of (get_repo_structure w owner repo token)))
  /\ (forall t,
         t <> "" ->
         Forall (fun rq => req_headers rq = [("Authorization", "token " ++ t)])
                (requests_of (get_repo_structure w owner repo (Some t)))).
Proof.
  split.
  - intros token Ht.
    destruct (requests_prefix w owner repo token) as (b & n & _ & ->).
    apply Forall_firstn_of.
    eapply Forall_impl; [|apply all_requests_shape].
    intros rq [-> _]. unfold auth_headers. destruct token; [now rewrite Ht | reflexivity].
  - intros t Ht.
    destruct (requests_prefix w owner repo (Some t)) as (b & n & _ & ->).
    apply Forall_firstn_of.
    eapply Forall_impl; [|apply all_requests_shape].
    intros rq [-> _]. unfold auth_headers, truthy.
    apply String.eqb_neq in Ht. now rewrite Ht.
Qed.

(** X6.  The metadata failure short-circuits: when the metadata request raises
    or is answered with a status other than 200, it is the only request
    of the run. *)
Theorem metadata_failure_stops_the_run (w : World) (owner repo : string)
    (token : option string) :
  (forall e,
      requests_get w (api_url owner repo) (auth_headers token) = Raise e ->
      result_of (get_repo_structure w owner repo token) = Raise e
      /\ requests_of (get_repo_structure w owner repo token)
         = [metadata_request owner repo token])
  /\ (forall r,
         requests_get w (api_url owner repo) (auth_headers token) = Ret r ->
         status_code r <> 200%Z ->
         requests_of (get_repo_structure w owner repo token)
         = [metadata_request owner repo token]).
Proof.
  split.
  - intros e H.
    unfold result_of, requests_of, get_repo_structure, bind, http_get. simpl app.
    rewrite H. split; reflexivity.
  - intros r H Hst.
    unfold requests_of, get_repo_structure, bind, http_get, lift, ret. simpl app.
    rewrite H. apply Z.eqb_neq in Hst. rewrite Hst. cbn [negb].
    destruct (json r) as [body|e]; [|reflexivity].
    destruct (py_get body "message" (PStr "Unknown error")); reflexivity.
Qed.

(* ================================================================== *)
(** * More on the file structure and the dependency mapping *)
(* ================================================================== *)

Lemma file_structure_of_entries (tr : response) (body : list (string * pyval))
    (entries : list pyval) :
  status_code tr = 200%Z ->
  json tr = Ret (PDict body) ->
  assoc "tree" body = Some (PList entries) ->
  file_structure_of tr
  = (files <-? py_map_getitem (firstn 100 entries) "path" ;; py_join nl files).
Proof.
  intros Hst Hjson Htree. unfold file_structure_of.
  apply Z.eqb_eq in Hst. rewrite Hst, Hjson. cbn [obind py_get]. rewrite Htree.
  reflexivity.
Qed.

Lemma py_map_getitem_app_raise (good : list pyval) (bad : pyval) (rest : list pyval)
    (k : string) (e : exn) :
  Forall (fun item => exists v, py_getitem item k = Ret v) good ->
  py_getitem bad k = Raise e ->
  py_map_getitem (good ++ bad :: rest) k = Raise e.
Proof.
  intros Hgood Hbad. induction Hgood as [|item good [v Hv] _ IH]; simpl.
  - now rewrite Hbad.
  - now rewrite Hv, IH.
Qed.

(** X7.  Only the first 100 tree entries are read: two 200 answers whose
    entry lists agree on their first 100 entries give the same file
    structure (or raise the same exception), whatever follows; and an
    answer without a [tree] key gives the empty structure. *)
Theorem file_structure_reads_100_entries :
  (forall tr tr' body body' entries entries',
      status_code tr = 200%Z -> json tr = Ret (PDict body) ->
      assoc "tree" body = Some (PList entries) ->
      status_code tr' = 200%Z -> json tr' = Ret (PDict body') ->
      assoc "tree" body' = Some (PList entries') ->
      firstn 100 entries = firstn 100 entries' ->
      file_structure_of tr = file_structure_of tr')
  /\ (forall tr body,
         status_code tr = 200%Z -> json tr = Ret (PDict body) ->
         assoc "tree" body = None ->
         file_structure_of tr = Ret "").
Proof.
  split.
  - intros tr tr' body body' entries entries' Hst Hjson Htree Hst' Hjson' Htree' Heq.
    rewrite (file_structure_of_entries tr body entries Hst Hjson Htree),
      (file_structure_of_entries tr' body' entries' Hst' Hjson' Htree'), Heq.
    reflexivity.
  - intros tr body Hst Hjson Htree. unfold file_structure_of.
    apply Z.eqb_eq in Hst. rewrite Hst, Hjson. cbn [obind py_get]. rewrite Htree.
    reflexivity.
Qed.

(** X8.  A tree entry among the first 100 that is an object without [path]
    makes the computation of the file structure raise [KeyError('path')],
    and with it the whole call, after the tree request and before any
    content request. *)
Theorem tree_entry_without_path_raises (w : World) (owner repo : string)
    (token : option string) (r : response) (items : list (string * pyval))
    (tr : response) (body : list (string * pyval))
    (good : list pyval) (fields : list (string * pyval)) (rest : list pyval) :
  requests_get w (api_url owner repo) (auth_headers token) = Ret r ->
  status_code r = 200%Z ->
  json r = Ret (PDict items) ->
  requests_get w (tree_url w owner repo (default_branch_of items)) (auth_headers token)
  = Ret tr ->
  status_code tr = 200%Z ->
  json tr = Ret (PDict body) ->
  assoc "tree" body = Some (PList (good ++ PDict fields :: rest)) ->
  length good < 100 ->
  Forall (fun item => exists v, py_getitem item "path" = Ret v) good ->
  assoc "path" fields = None ->
  file_structure_of tr = Raise (KeyError "path")
  /\ result_of (get_repo_structure w owner repo token) = Raise (KeyError "path")
  /\ requests_of (get_repo_structure w owner repo token)
     = [metadata_request owner repo token;
        tree_request w owner repo token (default_branch_of items)].
Proof.
  intros Hmeta Hst Hjson Htree Htst Htjson Hentries Hlen Hgood Hpath.
  assert (Hfs : file_structure_of tr = Raise (KeyError "path")).
  { rewrite (file_structure_of_entries tr body _ Htst Htjson Hentries).
    rewrite firstn_app.
    replace (100 - length good) with (S (99 - length good)) by lia.
    rewrite firstn_all2 by lia. cbn [firstn].
    rewrite (py_map_getitem_app_raise good (PDict fields) _ "path" (KeyError "path"));
      [reflexivity | exact Hgood |].
    simpl. now rewrite Hpath. }
  split; [exact Hfs|].
  unfold result_of, requests_of, get_repo_structure, bind, http_get, lift, ret.
  simpl app. rewrite Hmeta. apply Z.eqb_eq in Hst. rewrite Hst. cbn [negb].
  rewrite Hjson, py_get_object, Htree, Hfs. split; reflexivity.
Qed.

Lemma tree_entry_without_path_raises_witness :
  result_of (get_repo_structure broken_tree_world "octocat" "Hello-World" None)
  = Raise (KeyError "path").
Proof.
  refine (proj1 (proj2 (tree_entry_without_path_raises broken_tree_world
            "octocat" "Hello-World" None (ok hello_metadata)
            [("name", PStr "Hello-World"); ("stargazers_count", PInt 42);
             ("default_branch", PStr "master")]
            (ok (PDict [("tree", PList [PDict [("path", PStr "README.md")];
                                        PDict [("type", PStr "blob")]])]))
            [("tree", PList [PDict [("path", PStr "README.md")];
                             PDict [("type", PStr "blob")]])]
            [PDict [("path", PStr "README.md")]] [("type", PStr "blob")] []
            eq_refl eq_refl eq_refl eq_refl eq_refl eq_refl eq_refl _ _ eq_refl))).
  - simpl. lia.
  - repeat constructor. now exists (PStr "README.md").
Defined.

Section Mapping.

Variable w : World.
Variables owner repo : string.
Variable token : option string.

Local Abbreviation found := (found_entries w owner repo token).
Local Abbreviation is_found :=
  (fun f => is_some (dep_entry w owner repo token f)).

Lemma keys_found (files : list string) :
  keys (found files) = filter is_found files.
Proof.
  induction files as [|f rest IH]; [reflexivity|].
  unfold found_entries, keys in *. simpl. rewrite map_app, IH.
  destruct (dep_entry w owner repo token f); reflexivity.
Qed.

Lemma values_found (files : list string) :
  Forall (fun item => exists content, snd item = PStr content
                                      /\ looks_absent content = false)
         (found files).
Proof.
  induction files as [|f rest IH]; [constructor|].
  unfold found_entries in *. simpl. apply Forall_app. split; [|exact IH].
  unfold dep_entry.
  destruct (fetch_result w owner repo token f) as [content|e]; [|constructor].
  destruct (looks_absent content) eqn:E; constructor; [|constructor].
  simpl. eauto.
Qed.

End Mapping.

(** X9.  The dependency mapping of a returned snapshot: its keys are the
    manifest names that were found, in the order of the manifest list and
    without repetition, or the single key [status]; it has between one
    and seven entries; and every value is a string. *)
Theorem dependency_mapping_shape (w : World) (owner repo : string)
    (token : option string) (snap : pyval) :
  result_of (get_repo_structure w owner repo token) = Ret (snap, PNone) ->
  exists dependencies,
    field snap "dependencies" = Some (PDict dependencies)
    /\ (keys dependencies = ["status"]
        \/ keys dependencies
           = filter (fun f => is_some (dep_entry w owner repo token f)) dep_files)
    /\ NoDup (keys dependencies)
    /\ 1 <= length dependencies <= 7
    /\ Forall (fun item => exists content, snd item = PStr content) dependencies.
Proof.
  intros Hrun.
  destruct (snapshot_fields w owner repo token snap Hrun)
    as (r & md & b & tr & fs & rc & _ & _ & _ & _ & _ & _ & _ & _ & -> & _).
  exists (or_placeholder (found_entries w owner repo token dep_files)).
  split; [reflexivity|].
  pose proof (keys_found w owner repo token dep_files) as Hkeys.
  pose proof (values_found w owner repo token dep_files) as Hvalues.
  destruct (found_entries w owner repo token dep_files) as [|kv kvs] eqn:E.
  - simpl. split; [now left | split; [|split; [lia|]]].
    + repeat constructor. simpl. tauto.
    + repeat constructor. now exists no_dependency_message.
  - simpl or_placeholder. split; [now right | split; [|split]].
    + rewrite Hkeys. apply NoDup_filter, dep_files_NoDup.
    + split; [simpl; lia|].
      assert (Hlen : length (keys (kv :: kvs)) <= 7).
      { rewrite Hkeys. apply (filter_length_le _ dep_files). }
      unfold keys in Hlen. now rewrite length_map in Hlen.
    + eapply Forall_impl; [|exact Hvalues]. intros item (c & Hc & _). eauto.
Qed.

Lemma dependency_mapping_shape_witness :
  result_of (get_repo_structure hello_world "octocat" "Hello-World" None)
  = Ret (hello_snapshot, PNone)
  /\ exists dependencies,
       field hello_snapshot "dependencies" = Some (PDict dependencies)
       /\ NoDup (keys dependencies).
Proof.
  assert (Hrun : result_of (get_repo_structure hello_world "octocat" "Hello-World" None)
                 = Ret (hello_snapshot, PNone)) by (vm_compute; reflexivity).
  split; [exact Hrun|].
  destruct (dependency_mapping_shape hello_world "octocat" "Hello-World" None
              hello_snapshot Hrun) as (deps & Hf & _ & Hnd & _).
  exists deps. split; assumption.
Defined.

(* ================================================================== *)
(** * More on [analyze_with_gemini] *)
(* ================================================================== *)

(** X10.  The two stages compose: a snapshot returned by [get_repo_structure]
    is always accepted by [analyze_with_gemini], under any key and model
    and whatever the model service does: the prompt is built and the call
    returns a string. *)
Theorem snapshot_is_always_analyzed (w : World) (owner repo : string)
    (token : option string) (snap : pyval) (api_key model_name : string) :
  result_of (get_repo_structure w owner repo token) = Ret (snap, PNone) ->
  (exists prompt, build_prompt w snap = Ret prompt)
  /\ (exists answer, analyze_with_gemini w snap api_key model_name = Ret answer).
Proof.
  intros Hrun.
  destruct (snapshot_fields w owner repo token snap Hrun)
    as (r & md & b & tr & fs & rc & _ & _ & _ & _ & _ & _ & _ & _ & -> & _).
  assert (Hp : exists prompt,
             build_prompt w (snapshot_of md fs
                               (if looks_absent rc then no_readme_message else rc)
                               (or_placeholder (found_entries w owner repo token dep_files)))
             = Ret prompt).
  { eexists. apply build_prompt_of_snapshot; reflexivity. }
  split; [exact Hp|]. destruct Hp as [prompt Hp].
  unfold analyze_with_gemini. rewrite Hp. cbn [obind].
  destruct (genai_configure w api_key) as [[]|e]; cbn [obind]; [|eauto].
  destruct (genai_GenerativeModel w model_name) as [[]|e]; [|eauto].
  destruct (generate_content w api_key model_name prompt) as [g|e]; cbn [obind otry];
    [|eauto].
  destruct (text g); cbn [otry]; eauto.
Qed.

Lemma snapshot_is_always_analyzed_witness :
  result_of (get_repo_structure hello_world "octocat" "Hello-World" None)
  = Ret (hello_snapshot, PNone)
  /\ exists answer,
       analyze_with_gemini hello_world hello_snapshot "key" "models/gemini-2.5-flash"
       = Ret answer.
Proof.
  assert (Hrun : result_of (get_repo_structure hello_world "octocat" "Hello-World" None)
                 = Ret (hello_snapshot, PNone)) by (vm_compute; reflexivity).
  split; [exact Hrun|].
  exact (proj2 (snapshot_is_always_analyzed hello_world "octocat" "Hello-World" None
                  hello_snapshot "key" "models/gemini-2.5-flash" Hrun)).
Defined.


(* ================================================================== *)
(** * The model list *)
(* ================================================================== *)

Lemma append_supported_filter (ms : list Model) :
  forall models,
    append_supported ms models
    = (models ++ map name (filter offers_generation ms))%list.
Proof.
  induction ms as [|m ms IH]; intros models; simpl.
  - now rewrite app_nil_r.
  - rewrite IH. unfold offers_generation.
    destruct (py_in_list "generateContent" (supported_generation_methods m)); simpl;
      [now rewrite <- app_assoc | reflexivity].
Qed.

(** X12.  [get_available_models] never raises: it returns the names of the
    listed models that offer [generateContent], in the order of the
    listing, when the key is configured and the listing completes, and
    the empty list when configuring raises or the listing is
    interrupted, even after it has yielded models. *)
Theorem get_available_models_spec (w : World) (list_models : string -> ModelListing)
    (api_key : string) :
  (genai_configure w api_key = Ret tt ->
   interrupted (list_models api_key) = None ->
   get_available_models w list_models api_key
   = Ret (map name
            (filter (fun m => py_in_list "generateContent"
                                (supported_generation_methods m))
                    (listed (list_models api_key)))))
  /\ ((exists e, genai_configure w api_key = Raise e)
      \/ (exists e, interrupted (list_models api_key) = Some e) ->
      get_available_models w list_models api_key = Ret [])
  /\ (exists models,
         get_available_models w list_models api_key = Ret models
         /\ forall n, In n models ->
              exists m, In m (listed (list_models api_key))
                        /\ name m = n
                        /\ In "generateContent" (supported_generation_methods m)).
Proof.
  unfold get_available_models. rewrite append_supported_filter. simpl app.
  split; [|split].
  - intros -> ->. reflexivity.
  - intros [[e ->] | [e ->]]; [reflexivity|].
    destruct (genai_configure w api_key) as [[]|e']; reflexivity.
  - destruct (genai_configure w api_key) as [[]|e]; cbn [obind otry];
      [|exists []; split; [reflexivity | contradiction]].
    destruct (interrupted (list_models api_key));
      [exists []; split; [reflexivity | contradiction]|].
    eexists. split; [reflexivity|].
    intros n Hin. apply in_map_iff in Hin as (m & <- & Hm).
    apply filter_In in Hm as [Hm Hs]. exists m. repeat split; [exact Hm|].
    unfold offers_generation, py_in_list in Hs.
    apply existsb_exists in Hs as (x & Hx & Heq).
    apply String.eqb_eq in Heq. now subst x.
Qed.

Example get_available_models_example :
  get_available_models hello_world (fun _ => example_listing) "key"
  = Ret ["models/gemini-1.5-flash"; "models/gemini-2.5-flash"]
  /\ get_available_models hello_world
       (fun _ => {| listed := listed example_listing;
                    interrupted := Some (Exn "ServiceUnavailable" "503") |}) "key"
     = Ret [].
Proof. split; vm_compute; reflexivity. Qed.

Lemma py_in_list_In (x : string) (l : list string) :
  py_in_list x l = true <-> In x l.
Proof.
  unfold py_in_list. rewrite existsb_exists. split.
  - intros (y & Hy & Heq). apply String.eqb_eq in Heq. now subst y.
  - intros H. exists x. split; [exact H | apply String.eqb_refl].
Qed.

Lemma py_index_In (x : string) (l : list string) :
  In x l ->
  exists i, py_index x l = Ret i /\ nth_error l i = Some x /\ i < length l
            /\ forall j, j < i -> nth_error l j <> Some x.
Proof.
  induction l as [|y l IH]; [contradiction|].
  intros Hin. simpl py_index. destruct (String.eqb_spec y x) as [->|Hyx].
  - exists 0. repeat split; [simpl; lia | intros j Hj; lia].
  - destruct Hin as [->|Hin]; [contradiction|].
    destruct (IH Hin) as (i & -> & Hnth & Hlt & Hfirst).
    exists (S i). repeat split; [exact Hnth | simpl; lia |].
    intros [|j] Hj; simpl; [congruence | apply Hfirst; lia].
Qed.

Lemma py_index_not_In (x : string) (l : list string) :
  ~ In x l -> exists e, py_index x l = Raise e.
Proof.
  induction l as [|y l IH]; intros Hin; simpl; [eauto|].
  destruct (String.eqb_spec y x) as [->|_]; [elim Hin; now left|].
  destruct IH as [e ->]; [intros H; apply Hin; now right | simpl; eauto].
Qed.

(** X13.  The model selection starts on a valid index of a non-empty list: on
    the first occurrence of [models/gemini-2.5-flash] when the list has
    it, otherwise on the first occurrence of [models/gemini-1.5-flash]
    when the list has that, otherwise on the first model. *)
Theorem default_index_spec (available_models : list string) :
  available_models <> [] ->
  default_index available_models < length available_models
  /\ (In "models/gemini-2.5-flash" available_models ->
      nth_error available_models (default_index available_models)
      = Some "models/gemini-2.5-flash"
      /\ forall j, j < default_index available_models ->
           nth_error available_models j <> Some "models/gemini-2.5-flash")
  /\ (~ In "models/gemini-2.5-flash" available_models ->
      In "models/gemini-1.5-flash" available_models ->
      nth_error available_models (default_index available_models)
      = Some "models/gemini-1.5-flash"
      /\ forall j, j < default_index available_models ->
           nth_error available_models j <> Some "models/gemini-1.5-flash")
  /\ (~ In "models/gemini-2.5-flash" available_models ->
      ~ In "models/gemini-1.5-flash" available_models ->
      default_index available_models = 0).
Proof.
  intros Hne. unfold default_index.
  assert (Hpos : 0 < length available_models)
    by (destruct available_models; [contradiction | simpl; lia]).
  destruct (py_in_list "models/gemini-2.5-flash" available_models) eqn:E25; cbn [negb].
  - apply py_in_list_In in E25.
    destruct (py_index_In _ _ E25) as (i & -> & Hnth & Hlt & Hfirst).
    split; [exact Hlt | split; [auto | split; intros; contradiction]].
  - assert (H25 : ~ In "models/gemini-2.5-flash" available_models).
    { intros H. apply py_in_list_In in H. congruence. }
    destruct (in_dec string_dec "models/gemini-1.5-flash" available_models) as [H15|H15].
    + destruct (py_index_In _ _ H15) as (i & -> & Hnth & Hlt & Hfirst).
      split; [exact Hlt | split; [intros; contradiction | split; [auto|]]].
      intros _ H. contradiction.
    + destruct (py_index_not_In _ _ H15) as [e ->].
      split; [exact Hpos | split; [intros; contradiction | split; [|reflexivity]]].
      intros _ H. contradiction.
Qed.

Lemma default_index_spec_witness :
  default_index ["models/embedding-001"; "models/gemini-1.5-flash";
                 "models/gemini-2.5-flash"] < 3.
Proof.
  refine (proj1 (default_index_spec
                   ["models/embedding-001"; "models/gemini-1.5-flash";
                    "models/gemini-2.5-flash"] _)).
  discriminate.
Defined.

(** X14.  The short name shown for the selected model is what follows its last
    slash: it holds no slash, is the whole name when that has none, and is
    [x] for [prefix/x]. *)
Theorem display_name_spec :
  (forall selected_model, occurs "/" (display_name selected_model) = false)
  /\ (forall selected_model,
         occurs "/" selected_model = false -> display_name selected_model = selected_model)
  /\ (forall pre x,
         occurs "/" x = false -> display_name (pre ++ "/" ++ x) = x).
Proof.
  unfold display_name, index_from_end. split; [|split].
  - intros s. rewrite nth_pred_length_last.
    pose proof (split_pieces_no_sep "/" s) as H.
    pose proof (split_not_nil "/" s) as Hne.
    destruct (exists_last Hne) as (l & a & E). rewrite E in *.
    rewrite last_last. apply Forall_app in H as [_ H]. now inversion H.
  - intros s H. now rewrite (split_no_sep _ _ H).
  - intros pre x H. rewrite nth_pred_length_last.
    change (pre ++ "/" ++ x) with (pre ++ String "/" x).
    now rewrite split_app, (split_no_sep _ _ H), last_last.
Qed.

(* ================================================================== *)
(** * A click on "Analyze Repository" *)
(* ================================================================== *)

Lemma str_truthy_true (s : string) : s <> "" -> str_truthy s = true.
Proof. intros H. unfold str_truthy. apply String.eqb_neq in H. now rewrite H. Qed.

Lemma parse_github_url_repo_not_empty (url owner repo : string) :
  parse_github_url url = (Some owner, Some repo) -> repo <> "".
Proof.
  intros H Hrepo. unfold parse_github_url in H.
  destruct (length (split "/" (rstrip "/" url)) <? 2)%nat eqn:Hlen; [discriminate|].
  injection H as _ Hr.
  unfold index_from_end in Hr. rewrite nth_pred_length_last, Hrepo in Hr.
  destruct (last_split_empty _ _ Hr) as [Hempty | Hends].
  - rewrite Hempty in Hlen. discriminate Hlen.
  - rewrite rstrip_ends in Hends. discriminate Hends.
Qed.

Lemma accepted_click (w : World) (gemini_api_key model github_token repo_url : string)
    (owner repo : string) :
  gemini_api_key <> "" -> model <> "" -> repo_url <> "" ->
  parse_github_url repo_url = (Some owner, Some repo) -> owner <> "" ->
  click w gemini_api_key (Some model) github_token repo_url
  = fetch_and_analyze w gemini_api_key model github_token owner repo [] [].
Proof.
  intros Hk Hm Hu Hp Ho. unfold click, analyze_repository.
  rewrite (str_truthy_true _ Hk), (str_truthy_true _ Hu), Hp. unfold truthy.
  apply String.eqb_neq in Hm. rewrite Hm. cbn [negb].
  rewrite (str_truthy_true _ Ho).
  rewrite (str_truthy_true _ (parse_github_url_repo_not_empty _ _ _ Hp)).
  reflexivity.
Qed.

(** X15.  No request leaves the program before the inputs are accepted: with an
    empty API key, no selected model, an empty URL, or a URL that does
    not parse to a non-empty owner and repository, the click shows one
    error message, in this order of precedence, and issues no request. *)
Theorem rejected_inputs_issue_no_request (w : World) (gemini_api_key : string)
    (selected_model : option string) (github_token repo_url : string) :
  (gemini_api_key = "" ->
   click w gemini_api_key selected_model github_token repo_url
   = (Ret tt, [st_error missing_key_message], []))
  /\ (gemini_api_key <> "" -> truthy selected_model = false ->
      click w gemini_api_key selected_model github_token repo_url
      = (Ret tt, [st_error missing_model_message], []))
  /\ (gemini_api_key <> "" -> truthy selected_model = true -> repo_url = "" ->
      click w gemini_api_key selected_model github_token repo_url
      = (Ret tt, [st_error "Please enter a GitHub URL."], []))
  /\ (gemini_api_key <> "" -> truthy selected_model = true -> repo_url <> "" ->
      parse_github_url repo_url = (None, None)
      \/ (exists repo, parse_github_url repo_url = (Some "", Some repo)) ->
      click w gemini_api_key selected_model github_token repo_url
      = (Ret tt, [st_error "Invalid GitHub URL format."], [])).
Proof.
  unfold click, analyze_repository. split; [|split; [|split]].
  - intros ->. reflexivity.
  - intros Hk Hm. now rewrite (str_truthy_true _ Hk), Hm.
  - intros Hk Hm ->. now rewrite (str_truthy_true _ Hk), Hm.
  - intros Hk Hm Hu Hp.
    rewrite (str_truthy_true _ Hk), Hm, (str_truthy_true _ Hu). cbn [negb].
    destruct selected_model as [model|]; [|discriminate Hm].
    destruct Hp as [-> | [repo ->]]; reflexivity.
Qed.

(** X16.  When [get_repo_structure] returns its error pair, the click shows
    the fetching spinner and then that error text, nothing else, and the
    metadata request is the only request issued. *)
Theorem metadata_error_is_shown (w : World)
    (gemini_api_key model github_token repo_url owner repo msg : string) :
  gemini_api_key <> "" -> model <> "" -> repo_url <> "" ->
  parse_github_url repo_url = (Some owner, Some repo) -> owner <> "" ->
  result_of (get_repo_structure w owner repo (Some github_token))
  = Ret (PNone, PStr msg) ->
  click w gemini_api_key (Some model) github_token repo_url
  = (Ret tt,
     [st_spinner ("Fetching data for **" ++ owner ++ "/" ++ repo ++ "**..."
                  ++ (if str_truthy github_token then " (Using provided GitHub Token)"
                      else " (May hit rate limits without a token)"));
      st_error msg],
     [metadata_request owner repo (Some github_token)]).
Proof.
  intros Hk Hm Hu Hp Ho Hrun.
  rewrite (accepted_click w _ _ _ _ owner repo Hk Hm Hu Hp Ho).
  apply get_repo_structure_result in Hrun as [log Hret].
  pose proof Hret as Hrun. apply get_repo_structure_returns in Hrun.
  inversion Hret; subst.
  unfold fetch_and_analyze, ui_bind, emit, run_requests. simpl app.
  rewrite Hrun. reflexivity.
Qed.

Lemma metadata_error_is_shown_witness :
  click hello_world "key" (Some "models/gemini-2.5-flash") "" "https://github.com/octocat/Missing"
  = (Ret tt,
     [st_spinner "Fetching data for **octocat/Missing**... (May hit rate limits without a token)";
      st_error "Error: Could not fetch repo. Status Code: 404. Message: Not Found"],
     [metadata_request "octocat" "Missing" (Some "")]).
Proof.
  refine (metadata_error_is_shown hello_world "key" "models/gemini-2.5-flash" ""
            "https://github.com/octocat/Missing" "octocat" "Missing"
            "Error: Could not fetch repo. Status Code: 404. Message: Not Found"
            _ _ _ eq_refl _ _); try discriminate.
  vm_compute. reflexivity.
Defined.

(** X17.  When [get_repo_structure] returns a snapshot, the analysis is
    computed without raising and the requests are those of
    [get_repo_structure].  When the metadata's [stargazers_count] is
    absent (0 is shown) or is a value [st.metric] accepts, the click does
    not raise and the page ends with the repository name, the star count
    and the string [analyze_with_gemini] returns, unchanged.  When it is
    a list or a dictionary, [st.metric] raises [TypeError] after the
    repository name is shown, and the analysis is not shown. *)
Theorem snapshot_is_reported (w : World)
    (gemini_api_key model github_token repo_url owner repo : string) (snap : pyval) :
  gemini_api_key <> "" -> model <> "" -> repo_url <> "" ->
  parse_github_url repo_url = (Some owner, Some repo) -> owner <> "" ->
  result_of (get_repo_structure w owner repo (Some github_token)) = Ret (snap, PNone) ->
  exists items analysis,
    field snap "metadata" = Some (PDict items)
    /\ analyze_with_gemini w snap gemini_api_key model = Ret analysis
    /\ (metric_value (match assoc "stargazers_count" items with
                      | Some stars => stars
                      | None => PInt 0
                      end) = true ->
        click w gemini_api_key (Some model) github_token repo_url
        = (Ret tt,
           [st_spinner ("Fetching data for **" ++ owner ++ "/" ++ repo ++ "**..."
                        ++ (if str_truthy github_token
                            then " (Using provided GitHub Token)"
                            else " (May hit rate limits without a token)"));
            st_success "Repository data fetched! Analyzing with Gemini AI...";
            st_spinner ("Generating Score, Summary, and Roadmap using **"
                        ++ display_name model ++ "**...");
            st_markdown "---";
            st_image logo_url 100;
            st_metric "Repository" (PStr repo);
            st_metric "Stars" (match assoc "stargazers_count" items with
                               | Some stars => stars
                               | None => PInt 0
                               end);
            st_markdown analysis],
           requests_of (get_repo_structure w owner repo (Some github_token))))
    /\ (metric_value (match assoc "stargazers_count" items with
                      | Some stars => stars
                      | None => PInt 0
                      end) = false ->
        exists e,
          exn_class e = "TypeError"
          /\ click w gemini_api_key (Some model) github_token repo_url
             = (Raise e,
                [st_spinner ("Fetching data for **" ++ owner ++ "/" ++ repo ++ "**..."
                             ++ (if str_truthy github_token
                                 then " (Using provided GitHub Token)"
                                 else " (May hit rate limits without a token)"));
                 st_success "Repository data fetched! Analyzing with Gemini AI...";
                 st_spinner ("Generating Score, Summary, and Roadmap using **"
                             ++ display_name model ++ "**...");
                 st_markdown "---";
                 st_image logo_url 100;
                 st_metric "Repository" (PStr repo)],
                requests_of (get_repo_structure w owner repo (Some github_token)))).
Proof.
  intros Hk Hm Hu Hp Ho Hrun.
  rewrite (accepted_click w _ _ _ _ owner repo Hk Hm Hu Hp Ho).
  destruct (snapshot_fields w owner repo (Some github_token) snap Hrun)
    as (r & md & b & tr & fs & rc & _ & _ & _ & Hb & _ & _ & _ & _ & Hsnap & _).
  apply py_get_ret in Hb as (items & -> & _).
  assert (Hana : exists analysis,
             analyze_with_gemini w snap gemini_api_key model = Ret analysis).
  { subst snap. unfold analyze_with_gemini.
    erewrite build_prompt_of_snapshot by reflexivity. cbn [obind].
    destruct (genai_configure w gemini_api_key) as [[]|e]; cbn [obind]; [|eauto].
    destruct (genai_GenerativeModel w model) as [[]|e]; [|eauto].
    destruct (generate_content w gemini_api_key model _) as [g|e]; cbn [obind otry];
      [|eauto].
    destruct (text g); cbn [otry]; eauto. }
  destruct Hana as [analysis Hana].
  exists items, analysis. split; [now subst snap | split; [exact Hana|]].
  unfold requests_of, result_of in *.
  destruct (get_repo_structure w owner repo (Some github_token) []) as [o log] eqn:E.
  simpl in Hrun. subst o.
  unfold fetch_and_analyze, ui_bind, emit, run_requests, eval. simpl app.
  rewrite E. cbn [fst snd py_truthy]. rewrite Hana. subst snap.
  cbn [py_getitem assoc String.eqb Ascii.eqb Bool.eqb snapshot_of metric py_get app].
  split.
  - intros Hv.
    destruct (match assoc "stargazers_count" items with
              | Some stars => stars
              | None => PInt 0
              end); try discriminate Hv; reflexivity.
  - intros Hv.
    destruct (match assoc "stargazers_count" items with
              | Some stars => stars
              | None => PInt 0
              end); try discriminate Hv; eexists; (split; [|reflexivity]); reflexivity.
Qed.

Lemma snapshot_is_reported_witness :
  exists analysis,
    click hello_world "key" (Some "models/gemini-2.5-flash") ""
      "https://github.com/octocat/Hello-World"
    = (Ret tt,
       [st_spinner "Fetching data for **octocat/Hello-World**... (May hit rate limits without a token)";
        st_success "Repository data fetched! Analyzing with Gemini AI...";
        st_spinner "Generating Score, Summary, and Roadmap using **gemini-2.5-flash**...";
        st_markdown "---";
        st_image logo_url 100;
        st_metric "Repository" (PStr "Hello-World");
        st_metric "Stars" (PInt 42);
        st_markdown analysis],
       requests_of (get_repo_structure hello_world "octocat" "Hello-World" (Some ""))).
Proof.
  assert (Hrun : result_of (get_repo_structure hello_world
                              "octocat" "Hello-World" (Some ""))
                 = Ret (hello_snapshot, PNone)) by (vm_compute; reflexivity).
  assert (Hne : forall s c, String c s <> "") by discriminate.
  destruct (snapshot_is_reported hello_world "key" "models/gemini-2.5-flash" ""
              "https://github.com/octocat/Hello-World" "octocat" "Hello-World"
              hello_snapshot (Hne _ _) (Hne _ _) (Hne _ _) eq_refl (Hne _ _) Hrun)
    as (items & analysis & Hmeta & _ & Hclick & _).
  exists analysis. cbv in Hmeta. injection Hmeta as <-. exact (Hclick eq_refl).
Defined.

(** A star count that is a list: the page stops before the Stars metric. *)
Example stars_as_a_list :
  fst (fst (click odd_stars_world "key" (Some "models/gemini-2.5-flash") ""
              "https://github.com/octocat/Hello-World"))
  = Raise (TypeError "'<repr>' is of type <class 'list'>, which is not an accepted type. value only accepts: int, float, str, or None. Please convert the value to an accepted type.")
  /\ snd (fst (click odd_stars_world "key" (Some "models/gemini-2.5-flash") ""
                 "https://github.com/octocat/Hello-World"))
     = [st_spinner "Fetching data for **octocat/Hello-World**... (May hit rate limits without a token)";
        st_success "Repository data fetched! Analyzing with Gemini AI...";
        st_spinner "Generating Score, Summary, and Roadmap using **gemini-2.5-flash**...";
        st_markdown "---";
        st_image logo_url 100;
        st_metric "Repository" (PStr "Hello-World")].
Proof. split; vm_compute; reflexivity. Qed.

(* ================================================================== *)
(** * Runs that raise after the metadata *)
(* ================================================================== *)

Section Raising.

Variable w : World.
Variables owner repo : string.
Variable token : option string.

Local Abbreviation fetched := (fetch_result w owner repo token).
Local Abbreviation asked := (content_request owner repo token).

Lemma collect_dependencies_raise (before : list string) (f : string)
    (after : list string) (e : exn) :
  forall acc log,
    Forall (fun g => is_ret (fetched g) = true) before ->
    fetched f = Raise e ->
    collect_dependencies w owner repo token (before ++ f :: after) acc log
    = (Raise e, (log ++ map asked (before ++ [f]))%list).
Proof.
  induction before as [|g before IH]; intros acc log Hall Hf.
  - simpl app. rewrite collect_dependencies_step, Hf. reflexivity.
  - inversion Hall as [|? ? Hg Hrest]; subst.
    change ((g :: before) ++ f :: after)%list with (g :: (before ++ f :: after))%list.
    rewrite collect_dependencies_step.
    destruct (fetched g) as [c|e']; [|discriminate Hg].
    rewrite (IH _ _ Hrest Hf), <- app_assoc. reflexivity.
Qed.

(** The run, once the metadata is answered 200 with a JSON object. *)
Lemma run_after_metadata (r : response) (items : list (string * pyval)) :
  requests_get w (api_url owner repo) (auth_headers token) = Ret r ->
  status_code r = 200%Z ->
  json r = Ret (PDict items) ->
  get_repo_structure w owner repo token []
  = match requests_get w (tree_url w owner repo (default_branch_of items))
            (auth_headers token) with
    | Raise e =>
        (Raise e, [metadata_request owner repo token;
                   tree_request w owner repo token (default_branch_of items)])
    | Ret tr =>
        match file_structure_of tr with
        | Raise e =>
            (Raise e, [metadata_request owner repo token;
                       tree_request w owner repo token (default_branch_of items)])
        | Ret fs =>
            match fetched "README.md" with
            | Raise e =>
                (Raise e, [metadata_request owner repo token;
                           tree_request w owner repo token (default_branch_of items);
                           asked "README.md"])
            | Ret rc =>
                match collect_dependencies w owner repo token dep_files []
                        [metadata_request owner repo token;
                         tree_request w owner repo token (default_branch_of items);
                         asked "README.md"] with
                | (Ret d, log) =>
                    (Ret (snapshot_of (PDict items) fs
                            (if looks_absent rc then no_readme_message else rc)
                            (or_placeholder d),
                          PNone),
                     log)
                | (Raise e, log) => (Raise e, log)
                end
            end
        end
    end.
Proof.
  intros Hmeta Hst Hjson.
  unfold get_repo_structure, bind, http_get, lift, ret. simpl app.
  rewrite Hmeta. apply Z.eqb_eq in Hst. rewrite Hst. cbn [negb].
  rewrite Hjson, py_get_object.
  destruct (requests_get w (tree_url w owner repo (default_branch_of items))
              (auth_headers token)) as [tr|e]; [|reflexivity].
  destruct (file_structure_of tr) as [fs|e]; [|reflexivity].
  rewrite fetch_file_content_run. simpl app.
  destruct (fetched "README.md") as [rc|e]; [|reflexivity].
  unfold metadata_request, tree_request.
  match goal with
  | |- context [collect_dependencies w owner repo token dep_files [] ?l] =>
      destruct (collect_dependencies w owner repo token dep_files [] l) as [[d|e] log]
  end; [|reflexivity].
  rewrite or_placeholder_eq. reflexivity.
Qed.

End Raising.

Lemma file_structure_of_bad_body (tr : response) :
  status_code tr = 200%Z ->
  (forall e, json tr = Raise e -> file_structure_of tr = Raise e)
  /\ (forall body,
         json tr = Ret body -> (forall items, body <> PDict items) ->
         file_structure_of tr = Raise (AttributeError body "get")).
Proof.
  intros Hst. apply Z.eqb_eq in Hst. unfold file_structure_of. rewrite Hst. split.
  - intros e ->. reflexivity.
  - intros body -> Hbody. cbn [obind].
    destruct body; try reflexivity. now elim (Hbody items).
Qed.

(** C4, as the code has it: the manifest list is the seven names.  A run
    that returns a snapshot has requested each of them once, in the
    listed order, after the metadata, the tree and README.md; the entry
    under a manifest name is decided by the answer to that manifest's
    request alone; an answer that is not 200 raises nothing and leaves
    the name out; the mapping is never empty and is the single
    placeholder entry when no manifest is found.  The attempts are not
    unconditional: the first manifest fetch that raises ends the loop and
    the call with its exception, and the manifests after it are not
    requested. *)
Theorem manifests_are_requested_in_order (w : World) (owner repo : string)
    (token : option string) :
  dep_files = ["requirements.txt"; "package.json"; "Pipfile"; "pyproject.toml";
               "package-lock.json"; "Pipfile.lock"; "yarn.lock"]
  /\ (forall snap,
         result_of (get_repo_structure w owner repo token) = Ret (snap, PNone) ->
         (exists default_branch,
             requests_of (get_repo_structure w owner repo token)
             = metadata_request owner repo token
                 :: tree_request w owner repo token default_branch
                 :: content_request owner repo token "README.md"
                 :: map (content_request owner repo token) dep_files)
         /\ (exists dependencies,
                field snap "dependencies" = Some (PDict dependencies)
                /\ 1 <= length dependencies
                /\ dependencies
                   = or_placeholder (found_entries w owner repo token dep_files)
                /\ (Forall (fun f => dep_entry w owner repo token f = None) dep_files ->
                    dependencies = [("status", PStr no_dependency_message)]))
         /\ (forall f,
                In f dep_files ->
                dependency snap f = dep_entry w owner repo token f)
         /\ (forall f r,
                In f dep_files ->
                requests_get w (file_url owner repo f) (auth_headers token) = Ret r ->
                status_code r <> 200%Z ->
                fetch_result w owner repo token f = Ret (not_found_message f)
                /\ dependency snap f = None))
  /\ (forall r items tree_response file_structure readme_content before f after e,
         requests_get w (api_url owner repo) (auth_headers token) = Ret r ->
         status_code r = 200%Z ->
         json r = Ret (PDict items) ->
         requests_get w (tree_url w owner repo (default_branch_of items))
           (auth_headers token) = Ret tree_response ->
         file_structure_of tree_response = Ret file_structure ->
         fetch_result w owner repo token "README.md" = Ret readme_content ->
         dep_files = (before ++ f :: after)%list ->
         Forall (fun g => is_ret (fetch_result w owner repo token g) = true) before ->
         fetch_result w owner repo token f = Raise e ->
         result_of (get_repo_structure w owner repo token) = Raise e
         /\ requests_of (get_repo_structure w owner repo token)
            = metadata_request owner repo token
                :: tree_request w owner repo token (default_branch_of items)
                :: content_request owner repo token "README.md"
                :: map (content_request owner repo token) (before ++ [f])).
Proof.
  split; [reflexivity | split].
  - intros snap Hrun.
    destruct (returned_snapshot_manifests w owner repo token snap Hrun)
      as (_ & Hlog & Hdeps & Hentry & Habsent).
    split; [exact Hlog | split; [exact Hdeps | split; [exact Hentry | exact Habsent]]].
  - intros r items tr fs rc before f after e Hmeta Hst Hjson Htree Hfs Hreadme
      Hsplit Hbefore Hf.
    unfold result_of, requests_of.
    rewrite (run_after_metadata w owner repo token r items Hmeta Hst Hjson).
    rewrite Htree, Hfs, Hreadme, Hsplit.
    rewrite (collect_dependencies_raise w owner repo token before f after e _ _
               Hbefore Hf).
    split; reflexivity.
Qed.

(** C4 as stated fails: in a repository with a directory named [Pipfile]
    the contents endpoint answers 200 with a JSON array for the third
    manifest; the fetch raises [AttributeError], the call raises with
    it, and the four manifests after [Pipfile] are never requested. *)
Lemma directory_manifest_stops_the_loop :
  result_of (get_repo_structure pipfile_directory_world "octocat" "Hello-World" None)
  = Raise (Exn "AttributeError" "'list' object has no attribute 'get'")
  /\ map req_url
       (requests_of (get_repo_structure pipfile_directory_world
                       "octocat" "Hello-World" None))
     = ["https://api.github.com/repos/octocat/Hello-World";
        "https://api.github.com/repos/octocat/Hello-World/git/trees/master?recursive=1";
        "https://api.github.com/repos/octocat/Hello-World/contents/README.md";
        "https://api.github.com/repos/octocat/Hello-World/contents/requirements.txt";
        "https://api.github.com/repos/octocat/Hello-World/contents/package.json";
        "https://api.github.com/repos/octocat/Hello-World/contents/Pipfile"].
Proof. split; vm_compute; reflexivity. Qed.

(** The runs of C4 on the Hello-World repository, which has package.json
    only, and on the repository with a directory named [Pipfile]. *)
Lemma manifests_are_requested_in_order_witness :
  (result_of (get_repo_structure hello_world "octocat" "Hello-World" None)
   = Ret (hello_snapshot, PNone)
   /\ dependency hello_snapshot "package.json"
      = dep_entry hello_world "octocat" "Hello-World" None "package.json")
  /\ (result_of (get_repo_structure pipfile_directory_world "octocat" "Hello-World" None)
      = Raise (AttributeError (PList [PDict [("name", PStr "README");
                                            ("path", PStr "Pipfile/README");
                                            ("type", PStr "file")]]) "get")
      /\ length (requests_of (get_repo_structure pipfile_directory_world
                                "octocat" "Hello-World" None)) = 6).
Proof.
  split.
  - assert (Hrun : result_of (get_repo_structure hello_world "octocat" "Hello-World" None)
                   = Ret (hello_snapshot, PNone)) by (vm_compute; reflexivity).
    split; [exact Hrun|].
    destruct (manifests_are_requested_in_order hello_world "octocat" "Hello-World" None)
      as (_ & Hret & _).
    destruct (Hret hello_snapshot Hrun) as (_ & _ & Hentry & _).
    apply Hentry. simpl. tauto.
  - destruct (manifests_are_requested_in_order pipfile_directory_world
                "octocat" "Hello-World" None) as (_ & _ & Hraise).
    destruct (Hraise (ok hello_metadata)
                [("name", PStr "Hello-World"); ("stargazers_count", PInt 42);
                 ("default_branch", PStr "master")]
                (ok hello_tree) ("README.md" ++ nl ++ "package.json")
                ("Hello World!" ++ nl)
                ["requirements.txt"; "package.json"] "Pipfile"
                ["pyproject.toml"; "package-lock.json"; "Pipfile.lock"; "yarn.lock"]
                (AttributeError (PList [PDict [("name", PStr "README");
                                               ("path", PStr "Pipfile/README");
                                               ("type", PStr "file")]]) "get"))
      as [Hres Hlog];
      try (vm_compute; reflexivity).
    + repeat constructor.
    + split; [exact Hres|]. rewrite Hlog. reflexivity.
Defined.

(** C5, as the code has it: when the tree request is answered 200 with a
    JSON object whose [tree] lists entries that each carry a string
    [path], the file structure is the newline-joined paths of the first
    100 entries in the order of the answer (exactly 100 of them when
    there are 250 entries); when it is answered with another status the
    file structure is the join of no path, the empty string, and nothing
    is raised.  Whenever the tree answer has a file structure and every
    content request is answered with a status other than 200 or with a
    JSON object, the call returns a snapshot whose [structure] is that
    file structure, and every returned snapshot carries the file
    structure of its tree answer.  Other failures of the tree fetch are
    not degraded: when the tree request raises, or is answered 200 with a
    body that is not JSON or not an object, the call raises after the
    tree request. *)
Theorem file_structure_of_the_tree_answer (w : World) (owner repo : string)
    (token : option string) :
  (forall tree_response body entries all_paths,
      status_code tree_response = 200%Z ->
      json tree_response = Ret (PDict body) ->
      assoc "tree" body = Some (PList entries) ->
      Forall2 has_path entries all_paths ->
      file_structure_of tree_response = Ret (String.concat nl (firstn 100 all_paths))
      /\ (length entries = 250 -> length (firstn 100 all_paths) = 100))
  /\ (forall tree_response,
         status_code tree_response <> 200%Z ->
         file_structure_of tree_response = Ret (String.concat nl [])
         /\ String.concat nl [] = "")
  /\ (forall r items tree_response file_structure,
         requests_get w (api_url owner repo) (auth_headers token) = Ret r ->
         status_code r = 200%Z ->
         json r = Ret (PDict items) ->
         requests_get w (tree_url w owner repo (default_branch_of items))
           (auth_headers token) = Ret tree_response ->
         file_structure_of tree_response = Ret file_structure ->
         Forall (fun f => exists rr,
                     requests_get w (file_url owner repo f) (auth_headers token) = Ret rr
                     /\ (status_code rr <> 200%Z \/ object_body rr))
                ("README.md" :: dep_files) ->
         exists snap,
           result_of (get_repo_structure w owner repo token) = Ret (snap, PNone)
           /\ field snap "structure" = Some (PStr file_structure))
  /\ (forall snap,
         result_of (get_repo_structure w owner repo token) = Ret (snap, PNone) ->
         exists r repo_data default_branch tree_response file_structure,
           requests_get w (api_url owner repo) (auth_headers token) = Ret r
           /\ json r = Ret repo_data
           /\ py_get repo_data "default_branch" (PStr "main") = Ret default_branch
           /\ requests_get w (tree_url w owner repo default_branch) (auth_headers token)
              = Ret tree_response
           /\ file_structure_of tree_response = Ret file_structure
           /\ field snap "structure" = Some (PStr file_structure))
  /\ (forall r items,
         requests_get w (api_url owner repo) (auth_headers token) = Ret r ->
         status_code r = 200%Z ->
         json r = Ret (PDict items) ->
         (forall e,
             requests_get w (tree_url w owner repo (default_branch_of items))
               (auth_headers token) = Raise e ->
             result_of (get_repo_structure w owner repo token) = Raise e
             /\ requests_of (get_repo_structure w owner repo token)
                = [metadata_request owner repo token;
                   tree_request w owner repo token (default_branch_of items)])
         /\ (forall tree_response e,
                requests_get w (tree_url w owner repo (default_branch_of items))
                  (auth_headers token) = Ret tree_response ->
                file_structure_of tree_response = Raise e ->
                result_of (get_repo_structure w owner repo token) = Raise e
                /\ requests_of (get_repo_structure w owner repo token)
                   = [metadata_request owner repo token;
                      tree_request w owner repo token (default_branch_of items)]))
  /\ (forall tree_response,
         status_code tree_response = 200%Z ->
         (forall e, json tree_response = Raise e ->
                    file_structure_of tree_response = Raise e)
         /\ (forall body,
                json tree_response = Ret body ->
                (forall items, body <> PDict items) ->
                file_structure_of tree_response = Raise (AttributeError body "get"))).
Proof.
  destruct (file_structure_of_paths w owner repo token) as (Hpaths & Hfail & Hfield).
  split; [exact Hpaths | split; [exact Hfail | split; [|split; [exact Hfield | split]]]].
  - intros r items tr fs Hmeta Hst Hjson Htree Hfs Hall.
    destruct (snapshot_return w owner repo token r items tr fs
                Hmeta Hst Hjson Htree Hfs Hall) as (rc & _ & Hrun).
    eexists. split; [exact Hrun | reflexivity].
  - intros r items Hmeta Hst Hjson.
    unfold result_of, requests_of.
    rewrite (run_after_metadata w owner repo token r items Hmeta Hst Hjson). split.
    + intros e ->. split; reflexivity.
    + intros tr e -> ->. split; reflexivity.
  - exact file_structure_of_bad_body.
Qed.

(** C5 as stated fails: the tree request of the Hello-World repository
    times out; the file list is not degraded to the empty sequence, the
    call raises the transport's exception after two requests. *)
Lemma tree_timeout_raises :
  requests_get tree_timeout_world
    (tree_url tree_timeout_world "octocat" "Hello-World" (PStr "master"))
    (auth_headers None)
  = Raise tree_timeout
  /\ result_of (get_repo_structure tree_timeout_world "octocat" "Hello-World" None)
     = Raise tree_timeout
  /\ map req_url
       (requests_of (get_repo_structure tree_timeout_world "octocat" "Hello-World" None))
     = ["https://api.github.com/repos/octocat/Hello-World";
        "https://api.github.com/repos/octocat/Hello-World/git/trees/master?recursive=1"].
Proof. repeat split; vm_compute; reflexivity. Qed.

(** The run of C5 on a repository whose tree has 250 entries, and on one
    whose tree request is answered 404. *)
Lemma file_structure_of_the_tree_answer_witness :
  (exists snap,
      result_of (get_repo_structure big_tree_world "octocat" "Hello-World" None)
      = Ret (snap, PNone)
      /\ field snap "structure"
         = Some (PStr (String.concat nl
                         (map (fun i => "f" ++ str_of_int (Z.of_nat i)) (seq 0 100)))))
  /\ (exists snap,
         result_of (get_repo_structure metadata_only_world "octocat" "Hello-World" None)
         = Ret (snap, PNone)
         /\ field snap "structure" = Some (PStr "")).
Proof.
  assert (Hall : forall routes,
             (forall f, In f ("README.md" :: dep_files) ->
                        assoc (file_url "octocat" "Hello-World" f) routes = None) ->
             Forall (fun f => exists rr,
                         requests_get (world_of routes "### SCORE")
                           (file_url "octocat" "Hello-World" f) (auth_headers None)
                         = Ret rr
                         /\ (status_code rr <> 200%Z \/ object_body rr))
                    ("README.md" :: dep_files)).
  { intros routes Hnone. apply Forall_forall. intros f Hin.
    exists not_found_response. split.
    - simpl. unfold serve. now rewrite (Hnone f Hin).
    - left. discriminate. }
  split.
  - refine (proj1 (proj2 (proj2 (file_structure_of_the_tree_answer big_tree_world
              "octocat" "Hello-World" None)))
              (ok hello_metadata)
              [("name", PStr "Hello-World"); ("stargazers_count", PInt 42);
               ("default_branch", PStr "master")]
              (numbered_tree 250) _ eq_refl eq_refl eq_refl eq_refl _ _).
    + vm_compute. reflexivity.
    + apply Hall. intros f Hin. simpl in Hin.
      repeat (destruct Hin as [<- | Hin]; [reflexivity|]). contradiction.
  - refine (proj1 (proj2 (proj2 (file_structure_of_the_tree_answer metadata_only_world
              "octocat" "Hello-World" None)))
              (ok (PDict [("name", PStr "Hello-World")]))
              [("name", PStr "Hello-World")]
              not_found_response _ eq_refl eq_refl eq_refl eq_refl _ _).
    + reflexivity.
    + apply Hall. intros f Hin. simpl in Hin.
      repeat (destruct Hin as [<- | Hin]; [reflexivity|]). contradiction.
Defined.
